(** * SchemeMitra: the scheme-matching core of [app.py]

    A shallow embedding of the four functions of [app.py] that carry logic
    ([calculate_match_score], [filter_schemes], [load_schemes],
    [call_azure_openai] with [generate_eligibility_explanation]) and the
    properties stated about them, followed by the code around them:
    [analyze_text_azure], the session updates and generator calls of
    [render_scheme_card], the list of [render_bookmarked_schemes], the
    options of [render_filters], and the profile, query and category that
    [main] hands to the scorer and the filter.  The HTML the page writes is
    not modelled.

    Text.  A Python [str] is modelled as a [string]: the bytes of its UTF-8
    encoding.  The scorer looks for ASCII keywords in lower-cased text, for
    which [str.lower] is modelled by the pointwise map on the ASCII letters
    ([Text.lower]; bytes above 127 are left alone).  The filter compares
    lower-cased texts of any script and is modelled for every lower-casing
    function.  Python integers are [Z].

    Effects.  Code that can raise returns an [outcome]; what a function
    reports through [st.error] and the requests it sends are returned next
    to its result.  The file system and the text-generation service are
    inputs: a [catalog_resource] and a function from requests to
    [post_result].  The [st.cache_data] decorator of [load_schemes] only
    memoises the call and is left out. *)

From Stdlib Require Import List ZArith Lia Bool Ascii String DecimalString.
From Stdlib Require Import Orders Sorted Permutation Mergesort.
Import ListNotations.

#[local] Set Warnings "-register-all".

Open Scope string_scope.
Open Scope Z_scope.

(** ** Python text operations *)

Module Text.

Definition is_upper (c : ascii) : bool :=
  let n := N_of_ascii c in ((65 <=? n) && (n <=? 90))%N.

Definition is_lower (c : ascii) : bool :=
  let n := N_of_ascii c in ((97 <=? n) && (n <=? 122))%N.

Definition lower_char (c : ascii) : ascii :=
  if is_upper c then ascii_of_N (N_of_ascii c + 32) else c.

Definition upper_char (c : ascii) : ascii :=
  if is_lower c then ascii_of_N (N_of_ascii c - 32) else c.

(** [s.lower()] on ASCII text.  Bytes above 127 are left alone, which is
    also what [str.lower] does to the keywords' letters inside any text: no
    character outside ASCII lower-cases to a text in which a vocabulary
    keyword appears that it did not hold before. *)
Fixpoint lower (s : string) : string :=
  match s with
  | EmptyString => EmptyString
  | String c t => String (lower_char c) (lower t)
  end.

(** [s.upper()] *)
Fixpoint upper (s : string) : string :=
  match s with
  | EmptyString => EmptyString
  | String c t => String (upper_char c) (upper t)
  end.

(** [needle in hay]: [needle] occurs in [hay] as a contiguous slice. *)
Fixpoint contains (needle hay : string) : bool :=
  String.prefix needle hay ||
  match hay with
  | EmptyString => false
  | String _ t => contains needle t
  end.

(** [str.isspace] on one character of the model: the ASCII whitespace. *)
Definition is_space (c : ascii) : bool :=
  let n := N_of_ascii c in
  (((9 <=? n) && (n <=? 13)) || ((28 <=? n) && (n <=? 32)))%N.

Fixpoint lstrip (s : string) : string :=
  match s with
  | EmptyString => EmptyString
  | String c t => if is_space c then lstrip t else s
  end.

Fixpoint rstrip (s : string) : string :=
  match s with
  | EmptyString => EmptyString
  | String c t =>
      match rstrip t with
      | EmptyString => if is_space c then EmptyString else String c EmptyString
      | t' => String c t'
      end
  end.

(** [s.strip()] on ASCII text: the ASCII white space at both ends goes.
    ([str.strip] also removes the white space Unicode adds, such as
    U+00A0; a text with such characters is outside this definition.) *)
Definition strip (s : string) : string := rstrip (lstrip s).

(** Truthiness of a [str]: the empty string is false. *)
Definition truthy (s : string) : bool :=
  match s with EmptyString => false | _ => true end.

(** Two texts that differ only in the letter case of some characters:
    position by position the characters are equal, or one is the
    upper-case or lower-case form of the other. *)
Inductive case_variant : string -> string -> Prop :=
| cv_nil : case_variant EmptyString EmptyString
| cv_same c s t : case_variant s t -> case_variant (String c s) (String c t)
| cv_up c s t :
    case_variant s t -> case_variant (String c s) (String (upper_char c) t)
| cv_down c s t :
    case_variant s t -> case_variant (String c s) (String (lower_char c) t).

(** Maximal runs of ASCII letters and digits: the words of a text. *)
Definition is_word_char (c : ascii) : bool :=
  let n := N_of_ascii c in
  is_upper c || is_lower c || ((48 <=? n) && (n <=? 57))%N.

Fixpoint words_aux (cur : string) (s : string) : list string :=
  match s with
  | EmptyString =>
      match cur with EmptyString => [] | _ => [cur] end
  | String c t =>
      if is_word_char c then words_aux (cur ++ String c EmptyString) t
      else match cur with
           | EmptyString => words_aux EmptyString t
           | _ => cur :: words_aux EmptyString t
           end
  end.

Definition words (s : string) : list string := words_aux EmptyString s.

(** [w] occurs in [s] as a whole word. *)
Definition has_word (w s : string) : bool :=
  existsb (String.eqb w) (words s).

End Text.

(** ** Data model *)

(** A scheme record of the catalog ([schemes.json]); a well-formed scheme has
    every field, each a string. *)
Record scheme : Type := mkScheme {
  id : string;
  name : string;
  ministry : string;
  beneficiary : string;
  benefit : string;
  category : string;
  description : string;
  source_url : string
}.

(** ** Match scorer *)

Definition keywords : list string :=
  [ "farmer"; "women"; "youth"; "student"; "senior"; "elder"; "msme"; "business";
    "entrepreneur"; "girl"; "female"; "young"; "old"; "small"; "enterprise" ].

(** [f"{scheme['name']} {scheme['beneficiary']} {scheme['category']}".lower()] *)
Definition scheme_text (s : scheme) : string :=
  Text.lower (name s ++ " " ++ beneficiary s ++ " " ++ category s).

Definition profile_text (user_profile : string) : string :=
  Text.lower user_profile.

(** [sum(1 for x in xs if cond(x))]: the generator yields a 1 for every
    element that passes, and [sum] adds them up from 0. *)
Definition sum_ones {A : Type} (cond : A -> bool) (xs : list A) : Z :=
  fold_left (fun acc x => if cond x then acc + 1 else acc) xs 0.

(** The local [matches] of [calculate_match_score]. *)
Definition matches (s : scheme) (user_profile : string) : Z :=
  sum_ones
    (fun keyword =>
       Text.contains keyword (scheme_text s) &&
       Text.contains keyword (profile_text user_profile))
    keywords.

Definition calculate_match_score (s : scheme) (user_profile : string) : Z :=
  let base_score := 50 in
  let additional_score := matches s user_profile * 5 in
  Z.min 95 (base_score + additional_score).

(** The score formula as the specification words it: the bag of words is
    the plain concatenation [scheme.name + scheme.beneficiary +
    scheme.category], lowercased, and the count is the number of vocabulary
    keywords present in both texts. *)
Definition spec_scheme_text (s : scheme) : string :=
  Text.lower (name s ++ beneficiary s ++ category s).

Definition spec_match_count (s : scheme) (user_profile : string) : Z :=
  Z.of_nat (List.length
    (filter (fun keyword =>
               Text.contains keyword (spec_scheme_text s) &&
               Text.contains keyword (Text.lower user_profile))
            keywords)).

Definition spec_score (s : scheme) (user_profile : string) : Z :=
  Z.min 95 (50 + 5 * spec_match_count s user_profile).

(** The same count over the text the code builds (fields joined by single
    spaces). *)
Definition match_count (s : scheme) (user_profile : string) : Z :=
  Z.of_nat (List.length
    (filter (fun keyword =>
               Text.contains keyword (scheme_text s) &&
               Text.contains keyword (Text.lower user_profile))
            keywords)).

(** ** Filter engine *)

(** The filter lower-cases the query and four fields of every scheme with
    [str.lower].  Python's case mapping beyond ASCII (the Unicode tables,
    the final sigma, letters whose lower-case form has another length) is
    not written out here: the filter is modelled for every lower-casing
    function [str_lower], Python's own among them, and what is proved of it
    holds whatever [str.lower] does to a text.  [Text.lower] is the
    instance for ASCII text. *)
Section FilterEngine.
Variable str_lower : string -> string.

Definition filter_schemes (schemes : list scheme)
    (search_query ministry_filter beneficiary_filter category_filter : string)
    : list scheme :=
  let filtered := schemes in
  let filtered :=
    if Text.truthy search_query then
      let search_lower := str_lower search_query in
      filter (fun s =>
                Text.contains search_lower (str_lower (name s)) ||
                Text.contains search_lower (str_lower (description s)) ||
                Text.contains search_lower (str_lower (ministry s)) ||
                Text.contains search_lower (str_lower (beneficiary s)))
             filtered
    else filtered in
  let filtered :=
    if negb (ministry_filter =? "All Ministries")%string then
      filter (fun s => (ministry s =? ministry_filter)%string) filtered
    else filtered in
  let filtered :=
    if negb (beneficiary_filter =? "All Types")%string then
      filter (fun s => (beneficiary s =? beneficiary_filter)%string) filtered
    else filtered in
  let filtered :=
    if negb (category_filter =? "All Categories")%string then
      filter (fun s => (category s =? category_filter)%string) filtered
    else filtered in
  filtered.

(** The selection rule as the specification words it; a query occurs
    case-insensitively in a field when its lower-cased text occurs in the
    lower-cased field. *)
Definition occurs_ci (query field : string) : bool :=
  Text.contains (str_lower query) (str_lower field).

Definition query_ok (query : string) (s : scheme) : bool :=
  match query with
  | EmptyString => true
  | _ => occurs_ci query (name s) || occurs_ci query (description s) ||
         occurs_ci query (ministry s) || occurs_ci query (beneficiary s)
  end.

Definition criterion_ok (sentinel criterion field : string) : bool :=
  (criterion =? sentinel)%string || (field =? criterion)%string.

Definition selected (query ministry_c beneficiary_c category_c : string)
    (s : scheme) : bool :=
  query_ok query s &&
  criterion_ok "All Ministries" ministry_c (ministry s) &&
  criterion_ok "All Types" beneficiary_c (beneficiary s) &&
  criterion_ok "All Categories" category_c (category s).

End FilterEngine.

(** ** Exceptions and results *)

Inductive exc_class : Type :=
| FileNotFoundError
| JSONDecodeError
| AttributeError
| KeyError
| IndexError
| TypeError
| RequestsConnectionError
| RequestsTimeout
| RequestsHTTPError
| RequestsJSONDecodeError
| PermissionError
| IsADirectoryError
| UnicodeDecodeError.

(** An exception object: its class and [str(e)]. *)
Record exception : Type := mkExc { exc_cls : exc_class; exc_str : string }.

(** [isinstance(e, requests.exceptions.RequestException)] *)
Definition is_request_exception (e : exception) : bool :=
  match exc_cls e with
  | RequestsConnectionError | RequestsTimeout
  | RequestsHTTPError | RequestsJSONDecodeError => true
  | _ => false
  end.

(** [isinstance(e, FileNotFoundError)] *)
Definition is_file_not_found (e : exception) : bool :=
  match exc_cls e with FileNotFoundError => true | _ => false end.

(** What running a piece of Python gives: a value, or a raised exception. *)
Inductive outcome (A : Type) : Type :=
| Returned (a : A)
| Raised (e : exception).
Arguments Returned {A} a.
Arguments Raised {A} e.

Definition bind {A B : Type} (m : outcome A) (k : A -> outcome B) : outcome B :=
  match m with
  | Returned a => k a
  | Raised e => Raised e
  end.

Notation "x <- m ;; k" := (bind m (fun x => k))
  (at level 61, m at next level, right associativity).

(** ** JSON documents as Python values *)

Inductive json : Type :=
| JNull
| JBool (b : bool)
| JInt (n : Z)
| JFloat (literal : string)
| JStr (s : string)
| JList (items : list json)
| JDict (fields : list (string * json)).

Definition type_name (v : json) : string :=
  match v with
  | JNull => "NoneType"
  | JBool _ => "bool"
  | JInt _ => "int"
  | JFloat _ => "float"
  | JStr _ => "str"
  | JList _ => "list"
  | JDict _ => "dict"
  end.

(** Lookup in a parsed object; its keys are distinct, as in a Python [dict]. *)
Fixpoint lookup (key : string) (fields : list (string * json)) : option json :=
  match fields with
  | [] => None
  | (k, v) :: rest => if (k =? key)%string then Some v else lookup key rest
  end.

(** [v[key]] with a [str] key. *)
Definition getitem_str (v : json) (key : string) : outcome json :=
  match v with
  | JDict fields =>
      match lookup key fields with
      | Some x => Returned x
      | None => Raised (mkExc KeyError ("'" ++ key ++ "'"))
      end
  | JList _ =>
      Raised (mkExc TypeError "list indices must be integers or slices, not str")
  | JStr _ =>
      Raised (mkExc TypeError "string indices must be integers, not 'str'")
  | _ =>
      Raised (mkExc TypeError ("'" ++ type_name v ++ "' object is not subscriptable"))
  end.

(** [v[0]] *)
Definition getitem_0 (v : json) : outcome json :=
  match v with
  | JList (x :: _) => Returned x
  | JList [] => Raised (mkExc IndexError "list index out of range")
  | JStr (String c _) => Returned (JStr (String c EmptyString))
  | JStr EmptyString => Raised (mkExc IndexError "string index out of range")
  | JDict _ => Raised (mkExc KeyError "0")
  | _ =>
      Raised (mkExc TypeError ("'" ++ type_name v ++ "' object is not subscriptable"))
  end.

(** [v.strip()] *)
Definition call_strip (v : json) : outcome string :=
  match v with
  | JStr s => Returned (Text.strip s)
  | _ =>
      Raised (mkExc AttributeError
                ("'" ++ type_name v ++ "' object has no attribute 'strip'"))
  end.

(** [data.get(key, default)] *)
Definition call_get (data : json) (key : string) (default : json) : outcome json :=
  match data with
  | JDict fields =>
      Returned (match lookup key fields with Some x => x | None => default end)
  | _ =>
      Raised (mkExc AttributeError
                ("'" ++ type_name data ++ "' object has no attribute 'get'"))
  end.

(** ** Catalog loader *)

(** What the process finds at ['schemes.json']: no file, a file whose text
    is not a JSON document, a file holding the document [data], or a path
    at which [open] or the reading inside [json.load] raises [e] (a
    directory, a file without read permission, bytes that are not
    UTF-8). *)
Inductive catalog_resource : Type :=
| Absent
| Garbled
| Document (data : json)
| Unreadable (e : exception).

(** [open('schemes.json', 'r', encoding='utf-8')] followed by [json.load(f)]. *)
Definition open_and_parse (r : catalog_resource) : outcome json :=
  match r with
  | Absent =>
      Raised (mkExc FileNotFoundError
                "[Errno 2] No such file or directory: 'schemes.json'")
  | Garbled =>
      Raised (mkExc JSONDecodeError "Expecting value: line 1 column 1 (char 0)")
  | Document data => Returned data
  | Unreadable e => Raised e
  end.

Definition not_found_message : string :=
  "❌ schemes.json not found. Please ensure the file exists in the project directory.".

(** [load_schemes] gives what the call returns or raises, and the messages
    it reported through [st.error]. *)
Definition load_schemes (r : catalog_resource) : outcome json * list string :=
  let body :=
    data <- open_and_parse r ;;
    call_get data "schemes" (JList []) in
  match body with
  | Returned v => (Returned v, [])
  | Raised e =>
      if is_file_not_found e then (Returned (JList []), [not_found_message])
      else (Raised e, [])
  end.

(** ** Explanation generator *)

(** The module-level configuration read with [os.getenv]: [None] when the
    variable is not set. *)
Record config : Type := mkConfig {
  AZURE_OPENAI_API_KEY : option string;
  AZURE_OPENAI_ENDPOINT : option string;
  AZURE_OPENAI_DEPLOYMENT_NAME : string
}.

Definition AZURE_OPENAI_API_VERSION : string := "2023-05-15".

(** Truthiness of an [os.getenv] result. *)
Definition env_truthy (v : option string) : bool :=
  match v with
  | Some s => Text.truthy s
  | None => false
  end.

(** [str(v)] inside an f-string. *)
Definition env_str (v : option string) : string :=
  match v with
  | Some s => s
  | None => "None"
  end.

(** One [requests.post]: the URL, the [api-key] header and the JSON body. *)
Record request : Type := mkRequest {
  req_url : string;
  req_api_key : option string;
  req_system : string;
  req_user : string;
  req_temperature : string;
  req_max_tokens : Z;
  req_top_p : string;
  req_timeout : Z
}.

Inductive response_body : Type :=
| NotJSON
| Payload (v : json).

(** What the service does with one request. *)
Inductive post_result : Type :=
| ConnectionFailed (msg : string)
| TimedOut (msg : string)
| Responded (status : Z) (reason : string) (body : response_body).

Definition str_of_int (n : Z) : string := NilZero.string_of_int (Z.to_int n).

(** [requests.post(url, ...)] *)
Definition post (net : request -> post_result) (rq : request)
    : outcome (Z * string * response_body) :=
  match net rq with
  | ConnectionFailed msg => Raised (mkExc RequestsConnectionError msg)
  | TimedOut msg => Raised (mkExc RequestsTimeout msg)
  | Responded status reason body => Returned (status, reason, body)
  end.

(** [response.raise_for_status()]: [HTTPError] for the status codes 400 to
    599, and nothing otherwise.  The message shows the URL as it was sent;
    requests prints the normalised [response.url]. *)
Definition raise_for_status (url : string) (status : Z) (reason : string)
    : outcome unit :=
  if (400 <=? status) && (status <? 500) then
    Raised (mkExc RequestsHTTPError
              (str_of_int status ++ " Client Error: " ++ reason ++ " for url: " ++ url))
  else if (500 <=? status) && (status <? 600) then
    Raised (mkExc RequestsHTTPError
              (str_of_int status ++ " Server Error: " ++ reason ++ " for url: " ++ url))
  else Returned tt.

(** [response.json()] *)
Definition response_json (body : response_body) : outcome json :=
  match body with
  | NotJSON =>
      Raised (mkExc RequestsJSONDecodeError
                "Expecting value: line 1 column 1 (char 0)")
  | Payload v => Returned v
  end.

(** [result['choices'][0]['message']['content'].strip()] *)
Definition extract_content (result : json) : outcome string :=
  choices <- getitem_str result "choices" ;;
  first <- getitem_0 choices ;;
  message <- getitem_str first "message" ;;
  content <- getitem_str message "content" ;;
  call_strip content.

Definition system_content : string :=
  "You are a helpful assistant that explains Indian government schemes in simple, non-legal language. Be concise and clear.".

Definition not_configured_message : string :=
  "⚠️ Azure OpenAI not configured. Please set your API credentials in .env file.".

Definition build_request (cfg : config) (prompt : string) (max_tokens : Z)
    : request :=
  mkRequest
    (env_str (AZURE_OPENAI_ENDPOINT cfg) ++ "/openai/deployments/" ++
     AZURE_OPENAI_DEPLOYMENT_NAME cfg ++ "/chat/completions?api-version=" ++
     AZURE_OPENAI_API_VERSION)
    (AZURE_OPENAI_API_KEY cfg)
    system_content prompt "0.7" max_tokens "0.95" 10.

(** The [try] block of [call_azure_openai]: post, check the status, decode
    the body and take the content out. *)
Definition try_body (net : request -> post_result) (rq : request) : outcome string :=
  response <- post net rq ;;
  let '(status, reason, payload) := response in
  _ <- raise_for_status (req_url rq) status reason ;;
  result <- response_json payload ;;
  extract_content result.

(** [call_azure_openai] gives what the call returns or raises, and the
    requests it sent, in order. *)
Definition call_azure_openai (cfg : config) (net : request -> post_result)
    (prompt : string) (max_tokens : Z) : outcome string * list request :=
  if negb (env_truthy (AZURE_OPENAI_API_KEY cfg) &&
           env_truthy (AZURE_OPENAI_ENDPOINT cfg))
  then (Returned not_configured_message, [])
  else
    let rq := build_request cfg prompt max_tokens in
    match try_body net rq with
    | Returned text => (Returned text, [rq])
    | Raised e =>
        if is_request_exception e
        then (Returned ("⚠️ Error calling Azure OpenAI: " ++ exc_str e), [rq])
        else (Returned ("⚠️ Unexpected error: " ++ exc_str e), [rq])
    end.

Definition nl : string := String (ascii_of_nat 10) EmptyString.

Definition build_prompt (s : scheme) (user_profile : string) : string :=
  nl ++
  "    Scheme Name: " ++ name s ++ nl ++
  "    Ministry: " ++ ministry s ++ nl ++
  "    Beneficiary Type: " ++ beneficiary s ++ nl ++
  "    Benefit: " ++ benefit s ++ nl ++
  "    " ++ nl ++
  "    User Profile: " ++ user_profile ++ nl ++
  "    " ++ nl ++
  "    Based on the scheme details and user profile:" ++ nl ++
  "    1. Briefly explain (2-3 sentences) why this user MIGHT be eligible" ++ nl ++
  "    2. Mention any potential eligibility gaps" ++ nl ++
  "    3. Suggest next steps" ++ nl ++
  "    " ++ nl ++
  "    Keep language simple and non-legal." ++ nl ++
  "    ".

Definition generate_eligibility_explanation (cfg : config)
    (net : request -> post_result) (s : scheme) (user_profile : string)
    : outcome (string * Z) * list request :=
  let prompt := build_prompt s user_profile in
  let '(r, sent) := call_azure_openai cfg net prompt 150 in
  (explanation <- r ;;
   let match_score := calculate_match_score s user_profile in
   Returned (explanation, match_score),
   sent).

(** The marker every fallback explanation starts with. *)
Definition warning_marker : string := "⚠️".

Definition is_fallback (text : string) : bool :=
  String.prefix warning_marker text.

Definition configured (cfg : config) : bool :=
  env_truthy (AZURE_OPENAI_API_KEY cfg) && env_truthy (AZURE_OPENAI_ENDPOINT cfg).

(** The payload the service is expected to send: an object with a [choices]
    array whose first entry has a [message] object with a [content] string. *)
Definition payload_content (v : json) : option string :=
  match v with
  | JDict top =>
      match lookup "choices" top with
      | Some (JList (JDict choice :: _)) =>
          match lookup "message" choice with
          | Some (JDict message) =>
              match lookup "content" message with
              | Some (JStr text) => Some text
              | _ => None
              end
          | _ => None
          end
      | _ => None
      end
  | _ => None
  end.

(** The ways a call to the text-generation service fails; [bad_status]
    says which response statuses count as failures. *)
Inductive call_failure_with (bad_status : Z -> bool) (cfg : config)
    : post_result -> Prop :=
| missing_credentials r :
    configured cfg = false -> call_failure_with bad_status cfg r
| network_error msg :
    call_failure_with bad_status cfg (ConnectionFailed msg)
| timeout msg :
    call_failure_with bad_status cfg (TimedOut msg)
| error_status status reason body :
    bad_status status = true ->
    call_failure_with bad_status cfg (Responded status reason body)
| payload_not_json status reason :
    call_failure_with bad_status cfg (Responded status reason NotJSON)
| payload_malformed status reason v :
    payload_content v = None ->
    call_failure_with bad_status cfg (Responded status reason (Payload v)).

(** Failures as the specification lists them: any status outside 200..299. *)
Definition non_2xx (status : Z) : bool :=
  negb ((200 <=? status) && (status <? 300)).

Definition claimed_failure : config -> post_result -> Prop :=
  call_failure_with non_2xx.

(** Failures as [raise_for_status] sees them: the statuses 400..599. *)
Definition http_error_status (status : Z) : bool :=
  (400 <=? status) && (status <? 600).

Definition call_failure : config -> post_result -> Prop :=
  call_failure_with http_error_status.

(** ** Sample data *)

(** The specification's own example: "Kisan Samman" for a farmer. *)
Definition kisan : scheme :=
  mkScheme "1" "Kisan Samman" "Agriculture" "farmer" "Income support"
           "Farmers" "Income support for farmers" "https://example.org/kisan".

(** The same scheme with its name and beneficiary in capitals and its
    category in small letters. *)
Definition kisan_shouted : scheme :=
  mkScheme (id kisan) (Text.upper (name kisan)) (ministry kisan)
           (Text.upper (beneficiary kisan)) (benefit kisan)
           (Text.lower (category kisan)) (description kisan) (source_url kisan).

Definition skill_school : scheme :=
  mkScheme "2" "Skill School" "Skill Development" "Dropouts" "Free training"
           "Education" "Vocational training for school leavers"
           "https://example.org/skill".

Definition household : scheme :=
  mkScheme "3" "Household Support Scheme" "Rural Development" "Rural families"
           "Cooking gas connection" "Welfare" "Clean fuel for rural homes"
           "https://example.org/household".

Definition mahila : scheme :=
  mkScheme "4" "Mahila Udyam" "MSME" "Women" "Loans" "Women"
           "Credit for women entrepreneurs" "https://example.org/mahila".

(** A scheme whose texts share nine vocabulary keywords with a profile. *)
Definition omnibus : scheme :=
  mkScheme "5" "Farmer Women Youth Student Senior" "Many"
           "elder msme business entrepreneur" "Everything" "General"
           "A scheme for everyone" "https://example.org/omnibus".

Definition omnibus_profile : string :=
  "farmer women youth student senior elder msme business entrepreneur".

Definition no_credentials : config := mkConfig None None "gpt-35-turbo".

Definition credentials : config :=
  mkConfig (Some "secret") (Some "https://example.openai.azure.com") "gpt-35-turbo".

Definition good_payload (text : string) : json :=
  JDict [("choices", JList [JDict [("message", JDict [("role", JStr "assistant");
                                                      ("content", JStr text)])]])].

(** The loader's fallback: an empty collection is returned and a condition
    is reported. *)
Definition degrades_to_empty (r : catalog_resource) : Prop :=
  exists report, load_schemes r = (Returned (JList []), [report]).

Definition missing_or_malformed (r : catalog_resource) : Prop :=
  r = Absent \/ r = Garbled.

(** The request [generate_eligibility_explanation] sends for a scheme and a
    profile. *)
Definition explanation_request (cfg : config) (s : scheme)
    (user_profile : string) : request :=
  build_request cfg (build_prompt s user_profile) 150.

(** A service that answers every request with status 300 and a payload of
    the expected shape. *)
Definition redirecting_service (_ : request) : post_result :=
  Responded 300 "Multiple Choices" (Payload (good_payload "Apply at the office.")).

Definition timing_out_service (_ : request) : post_result :=
  TimedOut "HTTPSConnectionPool(host='example.openai.azure.com', port=443): Read timed out. (read timeout=10)".

(** ** Catalog categories *)

Definition CATEGORIES : list (string * string) :=
  [ ("Farmers", "🌾"); ("Women", "👩‍💼"); ("Youth", "👨‍🎓");
    ("MSME", "🏭"); ("Education", "📚"); ("Senior Citizens", "👴") ].

(** [list(CATEGORIES.keys())] *)
Definition CATEGORY_NAMES : list string := map fst CATEGORIES.

(** ** Text analytics *)

Record analytics_config : Type := mkAnalyticsConfig {
  AZURE_TEXTANALYTICS_KEY : option string;
  AZURE_TEXTANALYTICS_ENDPOINT : option string
}.

(** The request of [analyze_text_azure]: the URL, the subscription-key
    header and the one document of the body. *)
Record analytics_request : Type := mkAnalyticsRequest {
  an_url : string;
  an_key : option string;
  an_doc_id : string;
  an_language : string;
  an_text : string;
  an_timeout : Z
}.

Definition analytics_configured (cfg : analytics_config) : bool :=
  env_truthy (AZURE_TEXTANALYTICS_KEY cfg) &&
  env_truthy (AZURE_TEXTANALYTICS_ENDPOINT cfg).

Definition build_analytics_request (cfg : analytics_config) (text : string)
    : analytics_request :=
  mkAnalyticsRequest
    (env_str (AZURE_TEXTANALYTICS_ENDPOINT cfg) ++
     "/text/analytics/v3.1/entities/recognition/general")
    (AZURE_TEXTANALYTICS_KEY cfg) "1" "en" text 10.

(** The [try] block of [analyze_text_azure]: post, check the status and
    decode the body. *)
Definition analytics_try_body (net : analytics_request -> post_result)
    (rq : analytics_request) : outcome json :=
  response <-
    match net rq with
    | ConnectionFailed msg => Raised (mkExc RequestsConnectionError msg)
    | TimedOut msg => Raised (mkExc RequestsTimeout msg)
    | Responded status reason body => Returned (status, reason, body)
    end ;;
  let '(status, reason, payload) := response in
  _ <- raise_for_status (an_url rq) status reason ;;
  response_json payload.

Definition error_dict (message : string) : json :=
  JDict [("error", JStr message)].

(** [analyze_text_azure] gives what the call returns or raises, and the
    requests it sent. *)
Definition analyze_text_azure (cfg : analytics_config)
    (net : analytics_request -> post_result) (text : string)
    : outcome json * list analytics_request :=
  if negb (analytics_configured cfg)
  then (Returned (error_dict "Azure Text Analytics not configured"), [])
  else
    let rq := build_analytics_request cfg text in
    match analytics_try_body net rq with
    | Returned v => (Returned v, [rq])
    | Raised e =>
        if is_request_exception e
        then (Returned (error_dict
                ("Error calling Azure Text Analytics: " ++ exc_str e)), [rq])
        else (Returned (error_dict ("Unexpected error: " ++ exc_str e)), [rq])
    end.

(** ** Session state and scheme cards *)

(** The part of [st.session_state] the cards and [main] read and write. *)
Record session : Type := mkSession {
  bookmarked_schemes : list string;
  expanded_schemes : list string;
  last_user_profile : option string;
  selected_category : option string
}.

(** [x in xs] for a list of ids. *)
Definition mem (x : string) (xs : list string) : bool :=
  existsb (String.eqb x) xs.

(** [xs.remove(x)]: the list without the first [x]; [None] stands for the
    [ValueError] Python raises when [x] is not in the list. *)
Fixpoint list_remove (x : string) (xs : list string) : option (list string) :=
  match xs with
  | [] => None
  | y :: rest =>
      if (y =? x)%string then Some rest
      else match list_remove x rest with
           | Some rest' => Some (y :: rest')
           | None => None
           end
  end.

(** Which button of a card, if any, the user pressed before this run. *)
Inductive click : Type :=
| NoClick
| ClickExpand
| ClickBookmark.

(** How the body of [render_scheme_card] ends: it runs to its last line,
    showing the score and, for an expanded card, the explanation;
    [st.rerun()] cuts the run short after a button changed the session; or
    an exception leaves the function. *)
Inductive card_result : Type :=
| Rendered (match_score : Z) (explanation : option string)
| Rerun (ss : session)
| RemoveFailed
| CardRaised (e : exception).

Definition set_expanded (ss : session) (l : list string) : session :=
  mkSession (bookmarked_schemes ss) l (last_user_profile ss) (selected_category ss).

Definition set_bookmarked (ss : session) (l : list string) : session :=
  mkSession l (expanded_schemes ss) (last_user_profile ss) (selected_category ss).

(** [render_scheme_card], without the HTML it writes and without
    Streamlit's widget bookkeeping (a second card with the same button keys
    in one run is refused by Streamlit): the session reads and writes, the
    calls to the explanation generator and the reruns. *)
Definition render_scheme_card (cfg : config) (net : request -> post_result)
    (ss : session) (s : scheme) (clicked : click)
    : card_result * list request :=
  let is_bookmarked := mem (id s) (bookmarked_schemes ss) in
  let user_profile :=
    match last_user_profile ss with
    | Some p => p
    | None => "General user"
    end in
  let '(r1, sent1) := generate_eligibility_explanation cfg net s user_profile in
  match r1 with
  | Raised e => (CardRaised e, sent1)
  | Returned (_, match_score) =>
      match clicked with
      | ClickExpand =>
          if mem (id s) (expanded_schemes ss) then
            match list_remove (id s) (expanded_schemes ss) with
            | Some l => (Rerun (set_expanded ss l), sent1)
            | None => (RemoveFailed, sent1)
            end
          else (Rerun (set_expanded ss (expanded_schemes ss ++ [id s])%list), sent1)
      | ClickBookmark =>
          if is_bookmarked then
            match list_remove (id s) (bookmarked_schemes ss) with
            | Some l => (Rerun (set_bookmarked ss l), sent1)
            | None => (RemoveFailed, sent1)
            end
          else (Rerun (set_bookmarked ss (bookmarked_schemes ss ++ [id s])%list), sent1)
      | NoClick =>
          if mem (id s) (expanded_schemes ss) then
            let '(r2, sent2) :=
              generate_eligibility_explanation cfg net s user_profile in
            match r2 with
            | Raised e => (CardRaised e, (sent1 ++ sent2)%list)
            | Returned (explanation, _) =>
                (Rendered match_score (Some explanation), (sent1 ++ sent2)%list)
            end
          else (Rendered match_score None, sent1)
      end
  end.

(** The list [bookmarked] that [render_bookmarked_schemes] builds before
    it draws anything; nothing is built for an empty list of bookmarks. *)
Definition bookmarked_cards (SCHEMES : list scheme) (ss : session) : list scheme :=
  match bookmarked_schemes ss with
  | [] => []
  | _ => filter (fun s => mem (id s) (bookmarked_schemes ss)) SCHEMES
  end.

(** ** Filter panel *)

Module StringOrder <: Orders.TotalLeBool.
Definition t := string.
Definition leb := String.leb.
Definition leb_total : forall x y, leb x y = true \/ leb y x = true :=
  String.leb_total.
End StringOrder.

Module StringSort := Mergesort.Sort StringOrder.

(** [sorted(set(xs))]: the distinct elements in ascending order. *)
Definition sorted_set (xs : list string) : list string :=
  StringSort.sort (nodup string_dec xs).

(** The options of the three select boxes of [render_filters]. *)
Definition ministry_options (SCHEMES : list scheme) : list string :=
  "All Ministries" :: sorted_set (map ministry SCHEMES).

Definition beneficiary_options (SCHEMES : list scheme) : list string :=
  "All Types" :: sorted_set (map beneficiary SCHEMES).

Definition category_options : list string :=
  "All Categories" :: CATEGORY_NAMES.

(** ** Main page *)

(** The profile text [main] builds from the three inputs of the profile
    form. *)
Definition build_user_profile (age : Z) (category skills : string) : string :=
  let user_profile :=
    str_of_int age ++ " years old, " ++ category ++ " category" in
  if Text.truthy skills then user_profile ++ ", skills: " ++ skills
  else user_profile.

(** [search_query if search_button or search_query else ""] *)
Definition main_search_query (search_query : string) (search_button : bool)
    : string :=
  if search_button || Text.truthy search_query then search_query else "".

(** The filtering step of [main]: a category chosen with a category button
    and kept in the session replaces the one of the select box. *)
Definition main_filtered_schemes (str_lower : string -> string)
    (SCHEMES : list scheme) (ss : session)
    (search_query : string) (search_button : bool)
    (selected_ministry selected_beneficiary selected_category_box : string)
    : list scheme :=
  let selected_category :=
    match selected_category ss with
    | Some c => c
    | None => selected_category_box
    end in
  filter_schemes str_lower SCHEMES
                 (main_search_query search_query search_button)
                 selected_ministry selected_beneficiary selected_category.

(** ** Ends of a text *)

Definition first_char (s : string) : option ascii :=
  match s with
  | EmptyString => None
  | String c _ => Some c
  end.

Fixpoint last_char (s : string) : option ascii :=
  match s with
  | EmptyString => None
  | String c EmptyString => Some c
  | String _ t => last_char t
  end.

(** No whitespace at either end. *)
Definition trimmed (s : string) : Prop :=
  (forall c, first_char s = Some c -> Text.is_space c = false) /\
  (forall c, last_char s = Some c -> Text.is_space c = false).

(** Whether a JSON value is an object. *)
Definition is_object (v : json) : bool :=
  match v with
  | JDict _ => true
  | _ => false
  end.

(** ** Letter case beyond ASCII *)

(** A text of ASCII characters only. *)
Fixpoint is_ascii (s : string) : bool :=
  match s with
  | EmptyString => true
  | String c t => (N_of_ascii c <? 128)%N && is_ascii t
  end.

(** U+0131, the dotless i, and U+017F, the long s: their upper-case forms
    are the ASCII letters I and S, and [str.lower] leaves both alone. *)
Definition dotless_i : string := "ı".
Definition long_s : string := "ſ".

(** Two texts that differ only in the letter case of some characters, the
    two letters above included: the ASCII changes of [Text.case_variant],
    and a dotless i or a long s replaced by its upper-case form. *)
Inductive unicode_case_variant : string -> string -> Prop :=
| ucv_nil : unicode_case_variant EmptyString EmptyString
| ucv_same c s t :
    unicode_case_variant s t -> unicode_case_variant (String c s) (String c t)
| ucv_up c s t :
    unicode_case_variant s t ->
    unicode_case_variant (String c s) (String (Text.upper_char c) t)
| ucv_down c s t :
    unicode_case_variant s t ->
    unicode_case_variant (String c s) (String (Text.lower_char c) t)
| ucv_dotless_i s t :
    unicode_case_variant s t ->
    unicode_case_variant (dotless_i ++ s) (String "I" t)
| ucv_long_s s t :
    unicode_case_variant s t ->
    unicode_case_variant (long_s ++ s) (String "S" t).

Definition balika : scheme :=
  mkScheme "6" "Balika Samriddhi" "Women and Child Development" "Girl child"
           "Savings deposit" "Women" "Support for the girl child"
           "https://example.org/balika".

(** * Properties *)

(** ** Text *)

Module TextFacts.
Import Text.

Ltac by_cases_on_char c :=
  destruct c as [[] [] [] [] [] [] [] []]; reflexivity.

Lemma lower_char_idem c : lower_char (lower_char c) = lower_char c.
Proof. by_cases_on_char c. Qed.

Lemma lower_upper_char c : lower_char (upper_char c) = lower_char c.
Proof. by_cases_on_char c. Qed.

Lemma lower_app s t : lower (s ++ t) = lower s ++ lower t.
Proof.
  induction s as [|c s IH]; simpl; [reflexivity | now rewrite IH].
Qed.

Lemma lower_idem s : lower (lower s) = lower s.
Proof.
  induction s as [|c s IH]; simpl; [reflexivity|].
  now rewrite lower_char_idem, IH.
Qed.

(** Case variants have the same lowercase form. *)
Lemma case_variant_lower s t : case_variant s t -> lower s = lower t.
Proof.
  induction 1 as [|c s t _ IH|c s t _ IH|c s t _ IH]; simpl.
  - reflexivity.
  - now rewrite IH.
  - now rewrite lower_upper_char, IH.
  - now rewrite lower_char_idem, IH.
Qed.

Lemma case_variant_refl s : case_variant s s.
Proof. induction s; constructor; assumption. Qed.

Lemma case_variant_upper s : case_variant s (upper s).
Proof. induction s; simpl; constructor; assumption. Qed.

Lemma case_variant_lower_form s : case_variant s (lower s).
Proof. induction s; simpl; constructor; assumption. Qed.

End TextFacts.

(** ** Counting *)

Section Counting.
Context {A : Type} (cond : A -> bool).

Lemma sum_ones_from (xs : list A) (acc : Z) :
  fold_left (fun acc x => if cond x then acc + 1 else acc) xs acc
  = acc + Z.of_nat (List.length (filter cond xs)).
Proof.
  revert acc; induction xs as [|x xs IH]; intros acc; simpl.
  - lia.
  - rewrite IH. destruct (cond x); simpl List.length; lia.
Qed.

(** Python's [sum(1 for x in xs if cond(x))] counts the elements that pass. *)
Lemma sum_ones_count (xs : list A) :
  sum_ones cond xs = Z.of_nat (List.length (filter cond xs)).
Proof. unfold sum_ones. now rewrite sum_ones_from. Qed.

Lemma filter_length_le (xs : list A) :
  (List.length (filter cond xs) <= List.length xs)%nat.
Proof.
  induction xs as [|x xs IH]; simpl; [lia|].
  destruct (cond x); simpl; lia.
Qed.

Lemma sum_ones_bounds (xs : list A) :
  0 <= sum_ones cond xs <= Z.of_nat (List.length xs).
Proof.
  rewrite sum_ones_count. pose proof (filter_length_le xs). lia.
Qed.

End Counting.

(** ** Match scorer *)

Lemma matches_count s p : matches s p = match_count s p.
Proof. unfold matches, match_count, profile_text. apply sum_ones_count. Qed.

Lemma matches_bounds s p : 0 <= matches s p <= 15.
Proof.
  unfold matches.
  pose proof (sum_ones_bounds
    (fun keyword =>
       Text.contains keyword (scheme_text s) &&
       Text.contains keyword (profile_text p)) keywords) as H.
  simpl List.length in H. lia.
Qed.

(** The specification's example: one keyword, "farmer", is shared. *)
Example kisan_score : calculate_match_score kisan "35 years old farmer" = 55.
Proof. reflexivity. Qed.

Lemma contains_in_empty (c : ascii) (k : string) :
  Text.contains (String c k) "" = false.
Proof. reflexivity. Qed.

(** An empty profile shares no keyword with any scheme: the base score. *)
Lemma empty_profile_base_score (s : scheme) : calculate_match_score s "" = 50.
Proof.
  unfold calculate_match_score, matches, profile_text, sum_ones, keywords.
  simpl. rewrite !andb_false_r. reflexivity.
Qed.

(** C1, as amended: the score is [min(95, 50 + 5 * match_count)], where
    [match_count] is the number of vocabulary keywords present both in the
    lowercased text made of the scheme's name, beneficiary and category
    joined by single spaces, and in the lowercased profile text. *)
Theorem score_formula_joined_text (s : scheme) (user_profile : string) :
  calculate_match_score s user_profile
  = Z.min 95 (50 + 5 * match_count s user_profile).
Proof.
  unfold calculate_match_score. rewrite matches_count. f_equal. lia.
Qed.

(** C1, as the claim words it (plain concatenation of the three fields),
    fails: "Skill School" next to "Dropouts" concatenates to
    [...schooldropouts...], which holds "old", while the text the code
    builds keeps the two words apart. *)
Lemma score_formula_concatenation_fails :
  ~ (forall (s : scheme) (user_profile : string),
       calculate_match_score s user_profile = spec_score s user_profile).
Proof.
  intros H. specialize (H skill_school "35 years old").
  vm_compute in H. discriminate H.
Qed.

(** C6: the score lies in the closed interval [50, 95], for every scheme
    and every profile text, the empty one included. *)
Theorem score_in_range (s : scheme) (user_profile : string) :
  50 <= calculate_match_score s user_profile <= 95.
Proof.
  unfold calculate_match_score.
  pose proof (matches_bounds s user_profile). lia.
Qed.

(** C7: a pair with at least as many shared keyword hits as another scores
    at least as much; no score exceeds 95, and from nine hits on the score
    is 95. *)
Theorem score_monotone_saturating (s1 s2 : scheme) (p1 p2 : string) :
  matches s1 p1 <= matches s2 p2 ->
  calculate_match_score s1 p1 <= calculate_match_score s2 p2 /\
  calculate_match_score s2 p2 <= 95 /\
  (9 <= matches s2 p2 -> calculate_match_score s2 p2 = 95).
Proof.
  unfold calculate_match_score. intros H. lia.
Qed.

Lemma score_monotone_saturating_witness :
  matches kisan "35 years old farmer" <= matches omnibus omnibus_profile /\
  calculate_match_score kisan "35 years old farmer"
    <= calculate_match_score omnibus omnibus_profile /\
  calculate_match_score omnibus omnibus_profile <= 95 /\
  (9 <= matches omnibus omnibus_profile ->
   calculate_match_score omnibus omnibus_profile = 95).
Proof.
  split.
  - vm_compute. discriminate.
  - apply (score_monotone_saturating kisan omnibus
             "35 years old farmer" omnibus_profile).
    vm_compute. discriminate.
Defined.

Lemma scheme_text_case_variant (s s' : scheme) :
  Text.case_variant (name s) (name s') ->
  Text.case_variant (beneficiary s) (beneficiary s') ->
  Text.case_variant (category s) (category s') ->
  scheme_text s = scheme_text s'.
Proof.
  intros Hn Hb Hc. unfold scheme_text.
  rewrite !TextFacts.lower_app.
  now rewrite (TextFacts.case_variant_lower _ _ Hn),
              (TextFacts.case_variant_lower _ _ Hb),
              (TextFacts.case_variant_lower _ _ Hc).
Qed.

(** C8, as amended: changing the letter case of any ASCII letters (A-Z,
    a-z) of the scheme's name, beneficiary or category, or of the profile
    text, leaves the score unchanged. *)
Theorem score_case_insensitive (s s' : scheme) (p p' : string) :
  Text.case_variant (name s) (name s') ->
  Text.case_variant (beneficiary s) (beneficiary s') ->
  Text.case_variant (category s) (category s') ->
  Text.case_variant p p' ->
  calculate_match_score s p = calculate_match_score s' p'.
Proof.
  intros Hn Hb Hc Hp.
  unfold calculate_match_score, matches, profile_text.
  rewrite (scheme_text_case_variant s s' Hn Hb Hc).
  now rewrite (TextFacts.case_variant_lower _ _ Hp).
Qed.

Lemma score_case_insensitive_witness :
  Text.case_variant (name kisan) (name kisan_shouted) /\
  Text.case_variant (beneficiary kisan) (beneficiary kisan_shouted) /\
  Text.case_variant (category kisan) (category kisan_shouted) /\
  Text.case_variant "35 years old Farmer" "35 YEARS old farmer" /\
  calculate_match_score kisan "35 years old Farmer"
  = calculate_match_score kisan_shouted "35 YEARS old farmer".
Proof.
  assert (Hn : Text.case_variant (name kisan) (name kisan_shouted))
    by (vm_compute; repeat constructor).
  assert (Hb : Text.case_variant (beneficiary kisan) (beneficiary kisan_shouted))
    by (vm_compute; repeat constructor).
  assert (Hc : Text.case_variant (category kisan) (category kisan_shouted))
    by (vm_compute; repeat constructor).
  assert (Hp : Text.case_variant "35 years old Farmer" "35 YEARS old farmer")
    by (repeat constructor).
  split; [exact Hn|]. split; [exact Hb|]. split; [exact Hc|]. split; [exact Hp|].
  exact (score_case_insensitive kisan kisan_shouted _ _ Hn Hb Hc Hp).
Defined.

Lemma unicode_case_variant_refl (s : string) : unicode_case_variant s s.
Proof. induction s; constructor; assumption. Qed.

(** C8, as the claim words it (a change of letter case of any characters),
    fails beyond ASCII: the upper-case form of the dotless i is I, and
    [lower] does not lead back.  The profile "gırl" shares no keyword with
    a scheme for the girl child; in capitals it reads "GIRL" and shares
    "girl". *)
Lemma score_case_change_dotless_i :
  ~ (forall (s s' : scheme) (p p' : string),
       unicode_case_variant (name s) (name s') ->
       unicode_case_variant (beneficiary s) (beneficiary s') ->
       unicode_case_variant (category s) (category s') ->
       unicode_case_variant p p' ->
       calculate_match_score s p = calculate_match_score s' p').
Proof.
  intros H.
  assert (Hp : unicode_case_variant "gırl" "GIRL").
  { apply (ucv_up "g"). apply (ucv_dotless_i "rl" "RL").
    apply (ucv_up "r"). apply (ucv_up "l"). constructor. }
  specialize (H balika balika "gırl" "GIRL"
                (unicode_case_variant_refl _) (unicode_case_variant_refl _)
                (unicode_case_variant_refl _) Hp).
  vm_compute in H. discriminate H.
Qed.

(** C10: keyword presence is raw substring containment.  The "Household
    Support Scheme" scores above 50 for a profile that mentions a
    household, through "old" inside "household", although no vocabulary
    keyword is a whole word of both texts; "small" inside "smallholding"
    counts the same way. *)
Theorem substring_not_whole_word :
  (exists (s : scheme) (p : string),
     50 < calculate_match_score s p /\
     forall keyword, In keyword keywords ->
       Text.has_word keyword (scheme_text s) &&
       Text.has_word keyword (profile_text p) = false) /\
  Text.contains "old" "household" = true /\
  Text.has_word "old" "household" = false /\
  Text.contains "small" "smallholding" = true /\
  Text.has_word "small" "smallholding" = false.
Proof.
  split; [|repeat split; reflexivity].
  exists household, "I run a household of four". split.
  - reflexivity.
  - intros keyword Hin. simpl in Hin.
    repeat (destruct Hin as [<- | Hin]; [reflexivity|]).
    contradiction.
Qed.

(** ** Filter engine *)

Section FilterSteps.
Context {A : Type}.

(** Two list comprehensions in a row keep what passes both conditions. *)
Lemma filter_twice (f g : A -> bool) (xs : list A) :
  filter g (filter f xs) = filter (fun x => f x && g x) xs.
Proof.
  induction xs as [|x xs IH]; simpl; [reflexivity|].
  destruct (f x) eqn:Hf; simpl.
  - destruct (g x); now rewrite IH.
  - exact IH.
Qed.

Lemma filter_all (xs : list A) : filter (fun _ => true) xs = xs.
Proof. induction xs as [|x xs IH]; simpl; [reflexivity | now rewrite IH]. Qed.

(** A guarded comprehension is a comprehension with the guard in the
    condition. *)
Lemma filter_guarded (guard : bool) (f : A -> bool) (xs : list A) :
  (if guard then filter f xs else xs) = filter (fun x => negb guard || f x) xs.
Proof. destruct guard; simpl; [reflexivity | now rewrite filter_all]. Qed.

End FilterSteps.

Lemma truthy_empty (q : string) : Text.truthy q = negb (q =? "")%string.
Proof. destruct q; reflexivity. Qed.

Lemma selected_steps (str_lower : string -> string) (q m b c : string)
    (s : scheme) :
  (((negb (Text.truthy q) ||
     (Text.contains (str_lower q) (str_lower (name s)) ||
      Text.contains (str_lower q) (str_lower (description s)) ||
      Text.contains (str_lower q) (str_lower (ministry s)) ||
      Text.contains (str_lower q) (str_lower (beneficiary s)))) &&
    (negb (negb (m =? "All Ministries")%string) || (ministry s =? m)%string)) &&
   (negb (negb (b =? "All Types")%string) || (beneficiary s =? b)%string)) &&
  (negb (negb (c =? "All Categories")%string) || (category s =? c)%string)
  = selected str_lower q m b c s.
Proof.
  unfold selected, criterion_ok, query_ok, occurs_ci.
  rewrite !negb_involutive.
  destruct q; reflexivity.
Qed.


(** C9: with an empty query and every categorical criterion at its
    "All ..." sentinel, [filter_schemes] returns the list it was given,
    elements and order unchanged. *)
Theorem filter_schemes_unconstrained (str_lower : string -> string)
    (schemes : list scheme) :
  filter_schemes str_lower schemes "" "All Ministries" "All Types"
                 "All Categories"
  = schemes.
Proof. reflexivity. Qed.

(** The specification's example: one of the schemes mentions women. *)
Example filter_women :
  filter_schemes Text.lower [kisan; mahila; household] "WOMEN"
                 "All Ministries" "All Types" "All Categories" = [mahila].
Proof. reflexivity. Qed.

(** ** Catalog loader *)

(** C3, as amended: when ['schemes.json'] is missing, [load_schemes] returns
    an empty collection and reports the condition, and raises nothing. *)
Theorem load_schemes_missing_file :
  load_schemes Absent = (Returned (JList []), [not_found_message]) /\
  degrades_to_empty Absent.
Proof. split; [reflexivity | eexists; reflexivity]. Qed.

(** A file that is not a JSON document makes [json.load] raise, and the
    only handler, for [FileNotFoundError], lets the exception through. *)
Lemma load_schemes_garbled_raises :
  exists e, load_schemes Garbled = (Raised e, []) /\ exc_cls e = JSONDecodeError.
Proof. eexists; split; reflexivity. Qed.

(** C3, as the claim words it (missing or malformed both degrade to an
    empty catalog), fails on a malformed file. *)
Lemma load_schemes_malformed_not_handled :
  ~ (forall r, missing_or_malformed r -> degrades_to_empty r).
Proof.
  intros H. destruct (H Garbled) as [report Hr].
  - right; reflexivity.
  - discriminate Hr.
Qed.

(** A document without a [schemes] field loads as an empty collection, and
    nothing is reported. *)
Example load_schemes_no_field :
  load_schemes (Document (JDict [("version", JInt 1)])) = (Returned (JList []), []).
Proof. reflexivity. Qed.

(** ** Explanation generator *)

Lemma extract_content_well_formed (v : json) (text : string) :
  payload_content v = Some text -> extract_content v = Returned (Text.strip text).
Proof.
  unfold payload_content, extract_content.
  destruct v as [| | | | |items|top]; try discriminate. simpl.
  destruct (lookup "choices" top) as [[| | | | |[|[| | | | | |choice] rest]|]|];
    try discriminate. simpl.
  destruct (lookup "message" choice) as [[| | | | | |message]|];
    try discriminate. simpl.
  destruct (lookup "content" message) as [[| | | |content| |]|];
    try discriminate. simpl.
  now intros [= ->].
Qed.

(** A payload that lacks the expected shape makes the chain of subscripts
    raise, whatever else it holds. *)
Lemma extract_content_malformed (v : json) :
  payload_content v = None -> exists e, extract_content v = Raised e.
Proof.
  unfold payload_content, extract_content.
  destruct v as [| | | | |items|top]; simpl; try (eexists; reflexivity).
  destruct (lookup "choices" top) as [choices|]; simpl; [|eexists; reflexivity].
  destruct choices as [| | | |[|c0 t0]|[|first rest]|fields];
    simpl; try (eexists; reflexivity).
  destruct first as [| | | | | |choice]; simpl; try (eexists; reflexivity).
  destruct (lookup "message" choice) as [message|]; simpl; [|eexists; reflexivity].
  destruct message as [| | | | | |message]; simpl; try (eexists; reflexivity).
  destruct (lookup "content" message) as [content|]; simpl; [|eexists; reflexivity].
  destruct content; simpl; try (eexists; reflexivity).
  discriminate.
Qed.

Lemma raise_for_status_error (url : string) (status : Z) (reason : string) :
  http_error_status status = true ->
  exists e, raise_for_status url status reason = Raised e.
Proof.
  unfold http_error_status, raise_for_status. intros H.
  destruct ((400 <=? status) && (status <? 500)) eqn:H4; [eexists; reflexivity|].
  destruct ((500 <=? status) && (status <? 600)) eqn:H5; [eexists; reflexivity|].
  lia.
Qed.

Lemma raise_for_status_cases (url : string) (status : Z) (reason : string) :
  raise_for_status url status reason = Returned tt \/
  exists e, raise_for_status url status reason = Raised e.
Proof.
  unfold raise_for_status.
  destruct ((400 <=? status) && (status <? 500)); [right; eexists; reflexivity|].
  destruct ((500 <=? status) && (status <? 600)); [right; eexists; reflexivity|].
  now left.
Qed.

(** Every failure of the call makes the [try] block raise. *)
Lemma try_body_fails (cfg : config) (net : request -> post_result) (rq : request) :
  call_failure cfg (net rq) -> configured cfg = true ->
  exists e, try_body net rq = Raised e.
Proof.
  intros Hfail Hcfg. unfold try_body, post.
  destruct Hfail as [r Hno|msg|msg|status reason body Hbad|status reason
                    |status reason v Hmal].
  - congruence.
  - eexists; reflexivity.
  - eexists; reflexivity.
  - simpl. destruct (raise_for_status_error (req_url rq) status reason Hbad)
      as [e ->]. eexists; reflexivity.
  - simpl. destruct (raise_for_status_cases (req_url rq) status reason)
      as [-> | [e ->]]; eexists; reflexivity.
  - simpl. destruct (raise_for_status_cases (req_url rq) status reason)
      as [-> | [e ->]]; simpl; [|eexists; reflexivity].
    exact (extract_content_malformed v Hmal).
Qed.

Lemma is_fallback_request_error (msg : string) :
  is_fallback ("⚠️ Error calling Azure OpenAI: " ++ msg) = true.
Proof. reflexivity. Qed.

Lemma is_fallback_unexpected_error (msg : string) :
  is_fallback ("⚠️ Unexpected error: " ++ msg) = true.
Proof. reflexivity. Qed.

(** [call_azure_openai] returns a string on every path. *)
Lemma call_azure_openai_returns (cfg : config) (net : request -> post_result)
    (prompt : string) (max_tokens : Z) :
  exists text, fst (call_azure_openai cfg net prompt max_tokens) = Returned text.
Proof.
  unfold call_azure_openai.
  destruct (negb _); [eexists; reflexivity|].
  destruct (try_body net _) as [text|e]; [eexists; reflexivity|].
  destruct (is_request_exception e); eexists; reflexivity.
Qed.

Lemma call_azure_openai_fallback (cfg : config) (net : request -> post_result)
    (prompt : string) (max_tokens : Z) :
  call_failure cfg (net (build_request cfg prompt max_tokens)) ->
  exists text,
    fst (call_azure_openai cfg net prompt max_tokens) = Returned text /\
    is_fallback text = true.
Proof.
  intros Hfail. unfold call_azure_openai. fold (configured cfg).
  destruct (configured cfg) eqn:Hcfg; simpl.
  - destruct (try_body_fails cfg net _ Hfail Hcfg) as [e ->].
    destruct (is_request_exception e); eexists; split; try reflexivity.
  - eexists; split; reflexivity.
Qed.

Lemma generate_fst (cfg : config) (net : request -> post_result)
    (s : scheme) (user_profile : string) :
  fst (generate_eligibility_explanation cfg net s user_profile)
  = (explanation <- fst (call_azure_openai cfg net (build_prompt s user_profile) 150) ;;
     Returned (explanation, calculate_match_score s user_profile)).
Proof.
  unfold generate_eligibility_explanation.
  now destruct (call_azure_openai cfg net (build_prompt s user_profile) 150).
Qed.

Lemma generate_snd (cfg : config) (net : request -> post_result)
    (s : scheme) (user_profile : string) :
  snd (generate_eligibility_explanation cfg net s user_profile)
  = snd (call_azure_openai cfg net (build_prompt s user_profile) 150).
Proof.
  unfold generate_eligibility_explanation.
  now destruct (call_azure_openai cfg net (build_prompt s user_profile) 150).
Qed.

(** No exception leaves the explanation generator, whatever the service
    does: the caller gets a string paired with the score. *)
Lemma generate_never_raises (cfg : config) (net : request -> post_result)
    (s : scheme) (user_profile : string) :
  exists text,
    fst (generate_eligibility_explanation cfg net s user_profile)
    = Returned (text, calculate_match_score s user_profile).
Proof.
  rewrite generate_fst.
  destruct (call_azure_openai_returns cfg net (build_prompt s user_profile) 150)
    as [text ->].
  exists text; reflexivity.
Qed.

(** C4, as amended: on every failure of the call (network error, timeout,
    a response with status 400 to 599, a payload that is not JSON or lacks
    the expected shape, missing credentials) the explanation generator
    returns a fallback string, marked as a warning, paired with the score;
    no exception reaches the caller. *)
Theorem explanation_fallback_on_failure (cfg : config)
    (net : request -> post_result) (s : scheme) (user_profile : string) :
  call_failure cfg (net (explanation_request cfg s user_profile)) ->
  exists text,
    fst (generate_eligibility_explanation cfg net s user_profile)
    = Returned (text, calculate_match_score s user_profile) /\
    is_fallback text = true.
Proof.
  intros Hfail. rewrite generate_fst.
  destruct (call_azure_openai_fallback cfg net _ 150 Hfail) as [text [-> Hfb]].
  exists text; split; [reflexivity | exact Hfb].
Qed.

Lemma explanation_fallback_on_failure_witness :
  call_failure credentials
    (timing_out_service (explanation_request credentials kisan "35 years old farmer")) /\
  exists text,
    fst (generate_eligibility_explanation credentials timing_out_service
           kisan "35 years old farmer")
    = Returned (text, calculate_match_score kisan "35 years old farmer") /\
    is_fallback text = true.
Proof.
  assert (H : call_failure credentials
                (timing_out_service
                   (explanation_request credentials kisan "35 years old farmer")))
    by apply timeout.
  split; [exact H|].
  exact (explanation_fallback_on_failure credentials timing_out_service
           kisan "35 years old farmer" H).
Defined.

(** C4, as the claim words it (every non-2xx response is a failure that
    yields a fallback string), fails: a response with status 300 passes
    [raise_for_status], and its payload's content is returned as the
    explanation. *)
Lemma explanation_non_2xx_not_fallback :
  ~ (forall cfg net s user_profile,
       claimed_failure cfg (net (explanation_request cfg s user_profile)) ->
       exists text,
         fst (generate_eligibility_explanation cfg net s user_profile)
         = Returned (text, calculate_match_score s user_profile) /\
         is_fallback text = true).
Proof.
  intros H.
  destruct (H credentials redirecting_service kisan "35 years old farmer")
    as [text [Hret Hfb]].
  - unfold redirecting_service. apply error_status. reflexivity.
  - vm_compute in Hret. injection Hret as <-. discriminate Hfb.
Qed.

(** C5: without configured credentials the explanation generator returns
    the configuration warning, sends no request, and pairs the warning with
    the score the match scorer computes for the same scheme and profile. *)
Theorem explanation_without_credentials (cfg : config)
    (net : request -> post_result) (s : scheme) (user_profile : string) :
  configured cfg = false ->
  generate_eligibility_explanation cfg net s user_profile
  = (Returned (not_configured_message, calculate_match_score s user_profile), []) /\
  Text.contains warning_marker not_configured_message = true /\
  Text.contains "not configured" not_configured_message = true.
Proof.
  intros Hcfg.
  unfold generate_eligibility_explanation, call_azure_openai.
  fold (configured cfg). rewrite Hcfg. simpl.
  repeat split.
Qed.

Lemma explanation_without_credentials_witness :
  configured no_credentials = false /\
  generate_eligibility_explanation no_credentials timing_out_service
    kisan "35 years old farmer"
  = (Returned (not_configured_message,
               calculate_match_score kisan "35 years old farmer"), []) /\
  Text.contains warning_marker not_configured_message = true /\
  Text.contains "not configured" not_configured_message = true.
Proof.
  split; [reflexivity|].
  apply (explanation_without_credentials no_credentials timing_out_service
           kisan "35 years old farmer").
  reflexivity.
Defined.

(** * Further properties *)

(** ** Substrings *)

Section Substrings.
Import Text.

Lemma append_assoc (a b c : string) : (a ++ b) ++ c = a ++ b ++ c.
Proof. induction a as [|x a IH]; simpl; [reflexivity | now rewrite IH]. Qed.

Lemma append_empty_r (a : string) : a ++ "" = a.
Proof. induction a as [|x a IH]; simpl; [reflexivity | now rewrite IH]. Qed.

Lemma prefix_spec (k h : string) :
  String.prefix k h = true <-> exists post, h = k ++ post.
Proof.
  revert h; induction k as [|a k IH]; intros h.
  - destruct h; simpl; split; intros _; try reflexivity; eexists; reflexivity.
  - destruct h as [|b h]; simpl.
    + split; [discriminate | intros [post H]; discriminate H].
    + destruct (ascii_dec a b) as [->|Hne].
      * rewrite IH. split; intros [post H]; exists post.
        -- now rewrite H.
        -- now injection H.
      * split; [discriminate|]. intros [post H]. injection H as H1 H2.
        now elim Hne.
Qed.

(** [needle in hay] holds exactly when [hay] is [needle] with some text
    before and after it. *)
Lemma contains_spec (k h : string) :
  contains k h = true <-> exists pre post, h = pre ++ k ++ post.
Proof.
  induction h as [|b h IH].
  - change (contains k "") with (String.prefix k "" || false).
    rewrite orb_false_r, prefix_spec. split.
    + intros [post H]. exists "", post. exact H.
    + intros [pre [post H]]. destruct pre; [|discriminate H].
      exists post. exact H.
  - change (contains k (String b h))
      with (String.prefix k (String b h) || contains k h).
    rewrite orb_true_iff, prefix_spec, IH. split.
    + intros [[post H] | [pre [post H]]].
      * exists "", post. exact H.
      * exists (String b pre), post. simpl. now rewrite H.
    + intros [pre [post H]]. destruct pre as [|c pre].
      * left. exists post. exact H.
      * right. simpl in H. injection H as _ H. exists pre, post. exact H.
Qed.

Lemma contains_refl (k : string) : contains k k = true.
Proof. apply contains_spec. exists "", "". simpl. now rewrite append_empty_r. Qed.

Lemma contains_empty_needle (h : string) : contains "" h = true.
Proof. apply contains_spec. exists "", h. reflexivity. Qed.

Lemma contains_app_l (k a b : string) :
  contains k a = true -> contains k (a ++ b) = true.
Proof.
  rewrite !contains_spec. intros [pre [post ->]].
  exists pre, (post ++ b). now rewrite !append_assoc.
Qed.

Lemma contains_app_r (k a b : string) :
  contains k b = true -> contains k (a ++ b) = true.
Proof.
  rewrite !contains_spec. intros [pre [post ->]].
  exists (a ++ pre), post. now rewrite !append_assoc.
Qed.


Lemma contains_lower (a b : string) :
  contains a b = true -> contains (lower a) (lower b) = true.
Proof.
  rewrite !contains_spec. intros [pre [post ->]].
  exists (lower pre), (lower post). now rewrite !TextFacts.lower_app.
Qed.

Lemma contains_in_empty_iff (k : string) : contains k "" = true -> k = "".
Proof. destruct k; [reflexivity | discriminate]. Qed.

End Substrings.

(** ** Match scorer: further properties *)

Section CountingMore.
Context {A : Type}.

Lemma sum_ones_ext_in (c1 c2 : A -> bool) (xs : list A) :
  (forall x, In x xs -> c1 x = c2 x) -> sum_ones c1 xs = sum_ones c2 xs.
Proof.
  intros H. rewrite !sum_ones_count. do 2 f_equal.
  induction xs as [|x xs IH]; simpl; [reflexivity|].
  rewrite (H x (or_introl eq_refl)), IH; [reflexivity|].
  intros y Hy. apply H. now right.
Qed.

Lemma sum_ones_mono (c1 c2 : A -> bool) (xs : list A) :
  (forall x, c1 x = true -> c2 x = true) -> sum_ones c1 xs <= sum_ones c2 xs.
Proof.
  intros H. rewrite !sum_ones_count. apply inj_le.
  induction xs as [|x xs IH]; simpl; [lia|].
  destruct (c1 x) eqn:H1.
  - rewrite (H x H1). simpl. lia.
  - destruct (c2 x); simpl; lia.
Qed.

Lemma sum_ones_pos (c : A -> bool) (xs : list A) (x : A) :
  In x xs -> c x = true -> 1 <= sum_ones c xs.
Proof.
  intros Hin Hc. rewrite sum_ones_count.
  assert (Hf : In x (filter c xs)) by (apply filter_In; now split).
  destruct (filter c xs); [contradiction | simpl List.length; lia].
Qed.

End CountingMore.

(** One shared keyword is enough for 55. *)
Lemma score_at_least_55 (s : scheme) (p keyword : string) :
  In keyword keywords ->
  Text.contains keyword (scheme_text s) = true ->
  Text.contains keyword (profile_text p) = true ->
  55 <= calculate_match_score s p.
Proof.
  intros Hin Hs Hp. unfold calculate_match_score.
  assert (1 <= matches s p).
  { unfold matches. apply (sum_ones_pos _ keywords keyword Hin).
    now rewrite Hs, Hp. }
  lia.
Qed.

(** The score moves in steps of five: it is one of 50, 55, ..., 95. *)
Theorem score_steps_of_five (s : scheme) (user_profile : string) :
  exists k, 0 <= k <= 9 /\ calculate_match_score s user_profile = 50 + 5 * k.
Proof.
  pose proof (matches_bounds s user_profile) as Hb.
  exists (Z.min (matches s user_profile) 9).
  unfold calculate_match_score. lia.
Qed.

Lemma prefix_before_separator (sep : ascii) (k a b : string) :
  Text.contains (String sep "") k = false ->
  String.prefix k (a ++ String sep b) = String.prefix k a.
Proof.
  revert a; induction k as [|c k IH]; intros a Hsep.
  - now destruct a.
  - change (Text.contains (String sep "") (String c k))
      with (String.prefix (String sep "") (String c k)
            || Text.contains (String sep "") k) in Hsep.
    apply orb_false_iff in Hsep. destruct Hsep as [Hc Hk].
    simpl in Hc. destruct (ascii_dec sep c) as [->|Hne].
    + now destruct k.
    + destruct a as [|x a]; simpl.
      * destruct (ascii_dec c sep) as [->|_]; [now elim Hne | reflexivity].
      * destruct (ascii_dec c x); [now apply IH | reflexivity].
Qed.

(** A needle without the separator is found in two texts joined by the
    separator exactly when it is found in one of them. *)
Lemma contains_joined (sep : ascii) (k a b : string) :
  Text.contains (String sep "") k = false ->
  Text.contains k (a ++ String sep b) = Text.contains k a || Text.contains k b.
Proof.
  intros Hsep. induction a as [|x a IH].
  - change (Text.contains k ("" ++ String sep b))
      with (String.prefix k ("" ++ String sep b) || Text.contains k b).
    rewrite (prefix_before_separator sep k "" b Hsep).
    change (Text.contains k "") with (String.prefix k "" || false).
    now rewrite orb_false_r.
  - change (Text.contains k (String x a ++ String sep b))
      with (String.prefix k (String x a ++ String sep b)
            || Text.contains k (a ++ String sep b)).
    rewrite (prefix_before_separator sep k (String x a) b Hsep), IH.
    change (Text.contains k (String x a))
      with (String.prefix k (String x a) || Text.contains k a).
    now rewrite orb_assoc.
Qed.

Lemma keywords_without_space (keyword : string) :
  In keyword keywords -> Text.contains " " keyword = false.
Proof.
  intros Hin. simpl in Hin.
  repeat (destruct Hin as [<- | Hin]; [reflexivity|]). contradiction.
Qed.

(** The fields of a scheme are joined by spaces and no keyword holds a
    space, so a keyword is found in the scheme text exactly when it is found
    in the lowercased name, beneficiary or category on its own: a keyword
    never matches across two fields. *)
Theorem keyword_matches_within_one_field (s : scheme) (keyword : string) :
  In keyword keywords ->
  Text.contains keyword (scheme_text s)
  = Text.contains keyword (Text.lower (name s))
    || Text.contains keyword (Text.lower (beneficiary s))
    || Text.contains keyword (Text.lower (category s)).
Proof.
  intros Hin. pose proof (keywords_without_space keyword Hin) as Hsp.
  unfold scheme_text. rewrite !TextFacts.lower_app.
  change (Text.lower " ") with " ".
  change (" " ++ Text.lower (beneficiary s) ++ " " ++ Text.lower (category s))
    with (String " " (Text.lower (beneficiary s) ++ String " " (Text.lower (category s)))).
  rewrite !(contains_joined " ") by exact Hsp.
  now rewrite orb_assoc.
Qed.

Lemma keyword_matches_within_one_field_witness :
  In "old" keywords /\
  Text.contains "old" (scheme_text skill_school)
  = Text.contains "old" (Text.lower (name skill_school))
    || Text.contains "old" (Text.lower (beneficiary skill_school))
    || Text.contains "old" (Text.lower (category skill_school)).
Proof.
  assert (H : In "old" keywords) by (simpl; tauto).
  split; [exact H|].
  exact (keyword_matches_within_one_field skill_school "old" H).
Defined.

(** Text added before or after a profile never lowers a score. *)
Theorem score_profile_extension (s : scheme) (before p after : string) :
  calculate_match_score s p <= calculate_match_score s (before ++ p ++ after).
Proof.
  unfold calculate_match_score.
  assert (matches s p <= matches s (before ++ p ++ after)).
  { unfold matches, profile_text. apply sum_ones_mono. intros k Hk.
    apply andb_true_iff in Hk. destruct Hk as [Hs Hp]. rewrite Hs. simpl.
    rewrite !TextFacts.lower_app.
    apply contains_app_r, contains_app_l. exact Hp. }
  lia.
Qed.

(** The profile text of [main] always reads "... years old, ...". *)
Lemma built_profile_contains (age : Z) (c skills k : string) :
  Text.contains k (Text.lower (" years old, " ++ c ++ " category")) = true ->
  Text.contains k (profile_text (build_user_profile age c skills)) = true.
Proof.
  intros H. unfold profile_text, build_user_profile.
  destruct (Text.truthy skills).
  - rewrite TextFacts.lower_app. apply contains_app_l.
    rewrite TextFacts.lower_app. apply contains_app_r. exact H.
  - rewrite TextFacts.lower_app. apply contains_app_r. exact H.
Qed.

(** Every profile [main] builds holds the words "years old", so the keyword
    "old" is always on the profile's side: a scheme whose name, beneficiary
    or category holds "old" in any letter case (as in "household") scores at
    least 55 for users of every age, category and skill. *)
Theorem built_profile_always_old (s : scheme) (age : Z) (c skills : string) :
  Text.contains "old" (scheme_text s) = true ->
  55 <= calculate_match_score s (build_user_profile age c skills).
Proof.
  intros Hs. apply (score_at_least_55 s _ "old").
  - simpl; tauto.
  - exact Hs.
  - apply built_profile_contains.
    rewrite TextFacts.lower_app. apply contains_app_l. reflexivity.
Qed.

Lemma built_profile_always_old_witness :
  Text.contains "old" (scheme_text household) = true /\
  55 <= calculate_match_score household (build_user_profile 8 "Other" "").
Proof.
  assert (H : Text.contains "old" (scheme_text household) = true) by reflexivity.
  split; [exact H|].
  exact (built_profile_always_old household 8 "Other" "" H).
Defined.

(** A user who picks one of the categories Farmers, Women, Youth, MSME or
    Senior Citizens in the profile form gets at least 55 for every scheme
    of that category. *)
Theorem same_category_scores_55 (s : scheme) (age : Z) (c skills : string) :
  In c ["Farmers"; "Women"; "Youth"; "MSME"; "Senior Citizens"] ->
  category s = c ->
  55 <= calculate_match_score s (build_user_profile age c skills).
Proof.
  intros Hin Hcat.
  assert (Hk : exists k, In k keywords /\
                 Text.contains k (Text.lower c) = true).
  { simpl in Hin.
    destruct Hin as [<-|[<-|[<-|[<-|[<-|[]]]]]];
      [exists "farmer"|exists "women"|exists "youth"|exists "msme"|exists "senior"];
      (split; [simpl; tauto | reflexivity]). }
  destruct Hk as [k [Hkin Hkc]].
  apply (score_at_least_55 s _ k Hkin).
  - unfold scheme_text. rewrite Hcat, !TextFacts.lower_app.
    now do 4 apply contains_app_r.
  - apply built_profile_contains. rewrite !TextFacts.lower_app.
    apply contains_app_r, contains_app_l. exact Hkc.
Qed.

Lemma same_category_scores_55_witness :
  In "Women" ["Farmers"; "Women"; "Youth"; "MSME"; "Senior Citizens"] /\
  category mahila = "Women" /\
  55 <= calculate_match_score mahila (build_user_profile 30 "Women" "tailoring").
Proof.
  assert (H1 : In "Women" ["Farmers"; "Women"; "Youth"; "MSME"; "Senior Citizens"])
    by (simpl; tauto).
  assert (H2 : category mahila = "Women") by reflexivity.
  split; [exact H1|]. split; [exact H2|].
  exact (same_category_scores_55 mahila 30 "Women" "tailoring" H1 H2).
Defined.

(** ** Filter engine: further properties *)

Section FilterFacts.
Variable str_lower : string -> string.

(** [filter_schemes] as one pass with the conjunction of its conditions. *)
Lemma filter_schemes_one_pass (schemes : list scheme) (q m b c : string) :
  filter_schemes str_lower schemes q m b c
  = filter (selected str_lower q m b c) schemes.
Proof.
  unfold filter_schemes.
  rewrite !filter_guarded, !filter_twice.
  apply filter_ext. intros s. rewrite !andb_assoc. apply selected_steps.
Qed.


End FilterFacts.

Lemma filter_idem {A : Type} (f : A -> bool) (xs : list A) :
  filter f (filter f xs) = filter f xs.
Proof.
  rewrite filter_twice. apply filter_ext. intros x. now destruct (f x).
Qed.

(** Filtering a filtered list again with the same criteria changes
    nothing. *)
Theorem filter_schemes_idempotent (str_lower : string -> string)
    (schemes : list scheme) (q m b c : string) :
  filter_schemes str_lower (filter_schemes str_lower schemes q m b c) q m b c
  = filter_schemes str_lower schemes q m b c.
Proof. rewrite !filter_schemes_one_pass. apply filter_idem. Qed.

(** Every scheme is judged on its own: filtering two catalogs put end to
    end gives the two results put end to end. *)
Theorem filter_schemes_app (str_lower : string -> string)
    (l1 l2 : list scheme) (q m b c : string) :
  filter_schemes str_lower (l1 ++ l2)%list q m b c
  = (filter_schemes str_lower l1 q m b c
     ++ filter_schemes str_lower l2 q m b c)%list.
Proof. rewrite !filter_schemes_one_pass. apply filter_app. Qed.

(** The result of all criteria together is the intersection of the results
    of each criterion alone. *)
Theorem filter_schemes_intersection (str_lower : string -> string)
    (schemes : list scheme) (q m b c : string) (s : scheme) :
  In s (filter_schemes str_lower schemes q m b c) <->
  In s (filter_schemes str_lower schemes q
          "All Ministries" "All Types" "All Categories") /\
  In s (filter_schemes str_lower schemes "" m "All Types" "All Categories") /\
  In s (filter_schemes str_lower schemes "" "All Ministries" b "All Categories") /\
  In s (filter_schemes str_lower schemes "" "All Ministries" "All Types" c).
Proof.
  rewrite !filter_schemes_one_pass, !filter_In.
  unfold selected, criterion_ok.
  change (query_ok str_lower "" s) with true.
  rewrite !String.eqb_refl, !andb_true_iff. simpl. tauto.
Qed.

(** The result never has more schemes than the catalog, and holds none the
    catalog lacks. *)
Theorem filter_schemes_sublist (str_lower : string -> string)
    (schemes : list scheme) (q m b c : string) :
  incl (filter_schemes str_lower schemes q m b c) schemes /\
  (List.length (filter_schemes str_lower schemes q m b c)
   <= List.length schemes)%nat.
Proof.
  rewrite filter_schemes_one_pass. split.
  - apply incl_filter.
  - apply filter_length_le.
Qed.

Lemma case_variant_truthy (q q' : string) :
  Text.case_variant q q' -> Text.truthy q = Text.truthy q'.
Proof. now destruct 1. Qed.

Lemma ascii_case_char (c : ascii) :
  (N_of_ascii c <? 128)%N = true ->
  (N_of_ascii (Text.upper_char c) <? 128)%N = true /\
  (N_of_ascii (Text.lower_char c) <? 128)%N = true.
Proof.
  destruct c as [[] [] [] [] [] [] [] []]; intros H;
    try discriminate H; split; reflexivity.
Qed.

Lemma case_variant_ascii (q q' : string) :
  Text.case_variant q q' -> is_ascii q = true -> is_ascii q' = true.
Proof.
  induction 1 as [|c s t _ IH|c s t _ IH|c s t _ IH]; simpl;
    try reflexivity; rewrite !andb_true_iff; intros [Hc Hs];
    (split; [|now apply IH]).
  - exact Hc.
  - now apply ascii_case_char.
  - now apply ascii_case_char.
Qed.

(** The letter case of an ASCII query does not matter: [str.lower] maps
    ASCII text as [Text.lower] does, so two ASCII queries that differ only
    in letter case have one lower-case form and select the same schemes,
    whatever the script of the catalog. *)
Theorem filter_schemes_query_case (str_lower : string -> string)
    (schemes : list scheme) (q q' m b c : string) :
  (forall t, is_ascii t = true -> str_lower t = Text.lower t) ->
  is_ascii q = true ->
  Text.case_variant q q' ->
  filter_schemes str_lower schemes q m b c
  = filter_schemes str_lower schemes q' m b c.
Proof.
  intros Hlow Hq H. unfold filter_schemes.
  rewrite (case_variant_truthy q q' H).
  rewrite (Hlow q Hq), (Hlow q' (case_variant_ascii q q' H Hq)).
  now rewrite (TextFacts.case_variant_lower q q' H).
Qed.

Lemma filter_schemes_query_case_witness :
  (forall t, is_ascii t = true -> Text.lower t = Text.lower t) /\
  is_ascii "women" = true /\
  Text.case_variant "women" "WoMEN" /\
  filter_schemes Text.lower [kisan; mahila; household] "women"
                 "All Ministries" "Women" "All Categories"
  = filter_schemes Text.lower [kisan; mahila; household] "WoMEN"
                   "All Ministries" "Women" "All Categories".
Proof.
  assert (H0 : forall t, is_ascii t = true -> Text.lower t = Text.lower t)
    by reflexivity.
  assert (H1 : is_ascii "women" = true) by reflexivity.
  assert (H : Text.case_variant "women" "WoMEN") by (repeat constructor).
  split; [exact H0|]. split; [exact H1|]. split; [exact H|].
  exact (filter_schemes_query_case Text.lower [kisan; mahila; household]
           "women" "WoMEN" "All Ministries" "Women" "All Categories" H0 H1 H).
Defined.



(** ** Main page: query and category *)

(** The search button has no part in what is shown: [main] passes the text
    of the search box to the filter whether or not the button was
    pressed. *)
Theorem search_button_is_idle (str_lower : string -> string)
    (SCHEMES : list scheme) (ss : session)
    (search_query : string) (search_button : bool) (m b c : string) :
  main_search_query search_query search_button = search_query /\
  main_filtered_schemes str_lower SCHEMES ss search_query search_button m b c
  = main_filtered_schemes str_lower SCHEMES ss search_query
      (negb search_button) m b c.
Proof.
  assert (H : forall btn, main_search_query search_query btn = search_query).
  { intros btn. unfold main_search_query.
    destruct btn, search_query; reflexivity. }
  split; [apply H|].
  unfold main_filtered_schemes. now rewrite !H.
Qed.

Lemma category_names_not_sentinel (c : string) :
  In c CATEGORY_NAMES -> (c =? "All Categories")%string = false.
Proof.
  intros Hin. simpl in Hin.
  repeat (destruct Hin as [<- | Hin]; [reflexivity|]). contradiction.
Qed.

(** Once a category button has stored a category in the session, the
    category select box is ignored, its "All Categories" entry included:
    every scheme shown belongs to the stored category. *)
Theorem category_button_is_sticky (str_lower : string -> string)
    (SCHEMES : list scheme) (ss : session)
    (c search_query : string) (search_button : bool) (m b box : string)
    (s : scheme) :
  selected_category ss = Some c ->
  In c CATEGORY_NAMES ->
  In s (main_filtered_schemes str_lower SCHEMES ss search_query search_button
          m b box) ->
  category s = c.
Proof.
  intros Hss Hc. unfold main_filtered_schemes. rewrite Hss.
  rewrite filter_schemes_one_pass, filter_In. unfold selected, criterion_ok.
  rewrite (category_names_not_sentinel c Hc), !andb_true_iff. simpl.
  intros [_ [_ H]]. now apply String.eqb_eq.
Qed.

Lemma category_button_is_sticky_witness :
  selected_category (mkSession [] [] None (Some "Women")) = Some "Women" /\
  In "Women" CATEGORY_NAMES /\
  In mahila (main_filtered_schemes Text.lower [kisan; mahila; household]
               (mkSession [] [] None (Some "Women")) "" false
               "All Ministries" "All Types" "All Categories") /\
  category mahila = "Women".
Proof.
  assert (H1 : selected_category (mkSession [] [] None (Some "Women"))
               = Some "Women") by reflexivity.
  assert (H2 : In "Women" CATEGORY_NAMES) by (simpl; tauto).
  assert (H3 : In mahila (main_filtered_schemes Text.lower
               [kisan; mahila; household]
               (mkSession [] [] None (Some "Women")) "" false
               "All Ministries" "All Types" "All Categories"))
    by (vm_compute; tauto).
  split; [exact H1|]. split; [exact H2|]. split; [exact H3|].
  exact (category_button_is_sticky Text.lower [kisan; mahila; household]
           (mkSession [] [] None (Some "Women")) "Women" "" false
           "All Ministries" "All Types" "All Categories" mahila H1 H2 H3).
Defined.

(** ** Filter panel *)

Lemma sorted_set_In (x : string) (xs : list string) :
  In x (sorted_set xs) <-> In x xs.
Proof.
  unfold sorted_set. rewrite <- (nodup_In string_dec xs x). split.
  - apply Permutation_in. symmetry. apply StringSort.Permuted_sort.
  - apply Permutation_in. apply StringSort.Permuted_sort.
Qed.

Lemma sorted_set_NoDup (xs : list string) : NoDup (sorted_set xs).
Proof.
  unfold sorted_set.
  apply (Permutation_NoDup (StringSort.Permuted_sort _)), NoDup_nodup.
Qed.

(** The ministry and beneficiary select boxes list the "All ..." entry
    first and then exactly the values that occur in the catalog, each once,
    in ascending order. *)
Theorem filter_options_shape (SCHEMES : list scheme) :
  (exists rest,
     ministry_options SCHEMES = "All Ministries" :: rest /\
     Sorted (fun a b => String.leb a b = true) rest /\ NoDup rest /\
     forall o, In o rest <-> exists s, In s SCHEMES /\ ministry s = o) /\
  (exists rest,
     beneficiary_options SCHEMES = "All Types" :: rest /\
     Sorted (fun a b => String.leb a b = true) rest /\ NoDup rest /\
     forall o, In o rest <-> exists s, In s SCHEMES /\ beneficiary s = o).
Proof.
  split; eexists; (split; [reflexivity|]);
    (split; [apply StringSort.Sorted_sort|]);
    (split; [apply sorted_set_NoDup|]);
    intros o; rewrite sorted_set_In, in_map_iff;
    (split; intros [s [H1 H2]]; exists s; split; assumption).
Qed.

(** No entry of the ministry or beneficiary select box leads to an empty
    page by itself: with the other criteria unconstrained, every option
    selects at least one scheme of a catalog that is not empty. *)
Theorem filter_options_never_empty (str_lower : string -> string)
    (SCHEMES : list scheme) (o : string) :
  SCHEMES <> [] ->
  (In o (ministry_options SCHEMES) ->
   filter_schemes str_lower SCHEMES "" o "All Types" "All Categories" <> []) /\
  (In o (beneficiary_options SCHEMES) ->
   filter_schemes str_lower SCHEMES "" "All Ministries" o "All Categories"
   <> []).
Proof.
  intros Hne.
  assert (Hall : forall (f : scheme -> bool),
             (forall s, f s = true) -> filter f SCHEMES <> []).
  { intros f Hf. destruct SCHEMES as [|s0 rest]; [now elim Hne|].
    simpl. rewrite Hf. discriminate. }
  assert (Hsome : forall (f : scheme -> bool) s,
             In s SCHEMES -> f s = true -> filter f SCHEMES <> []).
  { intros f s Hin Hf Hnil.
    assert (H : In s (filter f SCHEMES)) by (apply filter_In; now split).
    rewrite Hnil in H. exact H. }
  split; intros Hin; rewrite filter_schemes_one_pass;
    unfold selected, criterion_ok; simpl query_ok; rewrite !String.eqb_refl.
  - destruct (o =? "All Ministries")%string eqn:Ho.
    + apply Hall. reflexivity.
    + destruct Hin as [<-|Hin]; [discriminate Ho|].
      apply sorted_set_In, in_map_iff in Hin. destruct Hin as [s [Hs Hin]].
      apply (Hsome _ s Hin). simpl. rewrite Hs, String.eqb_refl. reflexivity.
  - destruct (o =? "All Types")%string eqn:Ho.
    + apply Hall. reflexivity.
    + destruct Hin as [<-|Hin]; [discriminate Ho|].
      apply sorted_set_In, in_map_iff in Hin. destruct Hin as [s [Hs Hin]].
      apply (Hsome _ s Hin). simpl. rewrite Hs, String.eqb_refl. reflexivity.
Qed.

Lemma filter_options_never_empty_witness :
  [kisan; mahila; household] <> [] /\
  (In "MSME" (ministry_options [kisan; mahila; household]) ->
   filter_schemes Text.lower [kisan; mahila; household] "" "MSME" "All Types"
                  "All Categories" <> []) /\
  (In "MSME" (beneficiary_options [kisan; mahila; household]) ->
   filter_schemes Text.lower [kisan; mahila; household] "" "All Ministries"
                  "MSME" "All Categories" <> []).
Proof.
  assert (H : [kisan; mahila; household] <> []) by discriminate.
  split; [exact H|].
  exact (filter_options_never_empty Text.lower [kisan; mahila; household]
           "MSME" H).
Defined.

(** The category select box is the fixed list of categories, not the
    catalog's: an option of it can select nothing. *)
Example category_option_can_be_empty :
  In "Education" category_options /\
  filter_schemes Text.lower [kisan; mahila; household] "" "All Ministries"
                 "All Types" "Education" = [].
Proof. split; [simpl; tauto | reflexivity]. Qed.

(** ** Catalog loader: further properties *)

(** [load_schemes] raises exactly when the text of the file is not JSON,
    the document is not an object, or opening or reading the file raises
    anything but [FileNotFoundError] (a directory, a file without read
    permission, bytes that are not UTF-8); it reports a condition exactly
    when [FileNotFoundError] was raised.  A document without a [schemes]
    field loads as an empty catalog in silence. *)
Theorem load_schemes_raises_reports (r : catalog_resource) :
  ((exists e, fst (load_schemes r) = Raised e) <->
   r = Garbled \/
   (exists v, r = Document v /\ is_object v = false) \/
   (exists e, r = Unreadable e /\ is_file_not_found e = false)) /\
  (snd (load_schemes r) <> [] <->
   r = Absent \/ exists e, r = Unreadable e /\ is_file_not_found e = true).
Proof.
  destruct r as [| |v|e].
  - split; split.
    + intros [e H]. discriminate H.
    + intros [H|[[v [H _]]|[e [H _]]]]; discriminate H.
    + now left.
    + discriminate.
  - split; split.
    + now left.
    + intros _. eexists; reflexivity.
    + intros H. now elim H.
    + intros [H|[e [H _]]]; discriminate H.
  - split; split.
    + intros [e H]. right; left. exists v. split; [reflexivity|].
      destruct v; try reflexivity. discriminate H.
    + intros [H|[[w [[= <-] Hw]]|[e [H _]]]]; try discriminate H.
      destruct v; try discriminate Hw; eexists; reflexivity.
    + intros H. destruct v; now elim H.
    + intros [H|[e [H _]]]; discriminate H.
  - unfold load_schemes. simpl.
    destruct (is_file_not_found e) eqn:He; split; split; simpl.
    + intros [e' H]. discriminate H.
    + intros [H|[[v [H _]]|[e' [[= <-] H]]]]; try discriminate H. congruence.
    + intros _. right. now exists e.
    + discriminate.
    + intros _. right; right. now exists e.
    + intros _. now exists e.
    + intros H. now elim H.
    + intros [H|[e' [[= <-] H]]]; [discriminate H | congruence].
Qed.

(** A file the process may not read: the exception passes the handler. *)
Example load_schemes_permission_denied :
  load_schemes
    (Unreadable (mkExc PermissionError
                   "[Errno 13] Permission denied: 'schemes.json'"))
  = (Raised (mkExc PermissionError
               "[Errno 13] Permission denied: 'schemes.json'"), []).
Proof. reflexivity. Qed.

(** What sits under [schemes] is returned as it is, a list of schemes or
    not: the loader checks neither the type of the value nor the fields of
    the records. *)
Theorem load_schemes_no_validation (fields : list (string * json)) (v : json) :
  lookup "schemes" fields = Some v ->
  load_schemes (Document (JDict fields)) = (Returned v, []).
Proof. intros H. unfold load_schemes. simpl. now rewrite H. Qed.

Lemma load_schemes_no_validation_witness :
  lookup "schemes" [("schemes", JStr "none yet")] = Some (JStr "none yet") /\
  load_schemes (Document (JDict [("schemes", JStr "none yet")]))
  = (Returned (JStr "none yet"), []).
Proof.
  assert (H : lookup "schemes" [("schemes", JStr "none yet")]
              = Some (JStr "none yet")) by reflexivity.
  split; [exact H|].
  exact (load_schemes_no_validation _ _ H).
Defined.

(** ** Stripping *)

Section Stripping.
Import Text.

Lemma lstrip_first (s : string) (c : ascii) :
  first_char (lstrip s) = Some c -> is_space c = false.
Proof.
  induction s as [|x s IH]; simpl; [discriminate|].
  destruct (is_space x) eqn:Hx; [exact IH|].
  simpl. now intros [= <-].
Qed.

Lemma lstrip_fixed (s : string) :
  (forall c, first_char s = Some c -> is_space c = false) -> lstrip s = s.
Proof.
  destruct s as [|x s]; simpl; [reflexivity|].
  intros H. now rewrite (H x eq_refl).
Qed.

Lemma rstrip_last (s : string) (c : ascii) :
  last_char (rstrip s) = Some c -> is_space c = false.
Proof.
  induction s as [|x s IH]; simpl; [discriminate|].
  destruct (rstrip s) as [|y t] eqn:Hr.
  - destruct (is_space x) eqn:Hx; simpl; [discriminate|].
    now intros [= <-].
  - exact IH.
Qed.

Lemma rstrip_first (s : string) (c : ascii) :
  first_char (rstrip s) = Some c -> first_char s = Some c.
Proof.
  destruct s as [|x s]; simpl; [discriminate|].
  destruct (rstrip s); [destruct (is_space x)|]; simpl;
    [discriminate| |]; now intros [= <-].
Qed.

Lemma rstrip_fixed (s : string) :
  (forall c, last_char s = Some c -> is_space c = false) -> rstrip s = s.
Proof.
  induction s as [|x s IH]; simpl; [reflexivity|].
  intros H. destruct s as [|y t].
  - simpl. now rewrite (H x eq_refl).
  - rewrite IH by exact H. reflexivity.
Qed.

Lemma strip_is_trimmed (s : string) : trimmed (strip s).
Proof.
  unfold trimmed, strip. split; intros c H.
  - apply (lstrip_first s). now apply rstrip_first.
  - now apply (rstrip_last (lstrip s)).
Qed.

Lemma strip_fixed (s : string) : trimmed s -> strip s = s.
Proof.
  intros [Hf Hl]. unfold strip.
  rewrite (lstrip_fixed s Hf). now apply rstrip_fixed.
Qed.

End Stripping.

(** ** Explanation generator: further properties *)

Lemma raise_for_status_passes (url : string) (status : Z) (reason : string) :
  http_error_status status = false ->
  raise_for_status url status reason = Returned tt.
Proof.
  unfold http_error_status, raise_for_status. intros H.
  destruct ((400 <=? status) && (status <? 500)) eqn:H4; [lia|].
  destruct ((500 <=? status) && (status <? 600)) eqn:H5; [lia|].
  reflexivity.
Qed.

Lemma raise_for_status_request_error (url : string) (status : Z) (reason : string) :
  http_error_status status = true ->
  exists e, raise_for_status url status reason = Raised e /\
            is_request_exception e = true.
Proof.
  unfold http_error_status, raise_for_status. intros H.
  destruct ((400 <=? status) && (status <? 500)) eqn:H4;
    [eexists; split; reflexivity|].
  destruct ((500 <=? status) && (status <? 600)) eqn:H5;
    [eexists; split; reflexivity|].
  lia.
Qed.

(** The exceptions of the subscript chain are plain Python ones, none of
    them a [RequestException]. *)
Lemma extract_content_plain_error (v : json) :
  payload_content v = None ->
  exists e, extract_content v = Raised e /\ is_request_exception e = false.
Proof.
  unfold payload_content, extract_content.
  destruct v as [| | | | |items|top]; simpl; try (eexists; split; reflexivity).
  destruct (lookup "choices" top) as [choices|]; simpl;
    [|eexists; split; reflexivity].
  destruct choices as [| | | |[|c0 t0]|[|first rest]|fields];
    simpl; try (eexists; split; reflexivity).
  destruct first as [| | | | | |choice]; simpl; try (eexists; split; reflexivity).
  destruct (lookup "message" choice) as [message|]; simpl;
    [|eexists; split; reflexivity].
  destruct message as [| | | | | |message]; simpl;
    try (eexists; split; reflexivity).
  destruct (lookup "content" message) as [content|]; simpl;
    [|eexists; split; reflexivity].
  destruct content; simpl; try (eexists; split; reflexivity).
  discriminate.
Qed.

Lemma call_configured (cfg : config) (net : request -> post_result)
    (prompt : string) (max_tokens : Z) :
  configured cfg = true ->
  call_azure_openai cfg net prompt max_tokens
  = let rq := build_request cfg prompt max_tokens in
    match try_body net rq with
    | Returned text => (Returned text, [rq])
    | Raised e =>
        if is_request_exception e
        then (Returned ("⚠️ Error calling Azure OpenAI: " ++ exc_str e), [rq])
        else (Returned ("⚠️ Unexpected error: " ++ exc_str e), [rq])
    end.
Proof.
  intros H. unfold call_azure_openai. fold (configured cfg). now rewrite H.
Qed.

Lemma generate_sent (cfg : config) (net : request -> post_result)
    (s : scheme) (user_profile : string) :
  snd (generate_eligibility_explanation cfg net s user_profile)
  = if configured cfg then [explanation_request cfg s user_profile] else [].
Proof.
  rewrite generate_snd. destruct (configured cfg) eqn:Hcfg.
  - rewrite (call_configured cfg net _ 150 Hcfg). cbv zeta.
    unfold explanation_request.
    destruct (try_body net _) as [text|e]; [reflexivity|].
    destruct (is_request_exception e); reflexivity.
  - unfold call_azure_openai. fold (configured cfg). now rewrite Hcfg.
Qed.

(** One call of the explanation generator sends exactly one request when
    the credentials are configured, whatever the service answers, and none
    otherwise: a failed call is not tried again. *)
Theorem explanation_sends_one_request (cfg : config)
    (net : request -> post_result) (s : scheme) (user_profile : string) :
  snd (generate_eligibility_explanation cfg net s user_profile)
  = (if configured cfg then [explanation_request cfg s user_profile] else []) /\
  (List.length (snd (generate_eligibility_explanation cfg net s user_profile))
   <= 1)%nat.
Proof.
  rewrite generate_sent. split; [reflexivity|].
  destruct (configured cfg); simpl; lia.
Qed.

(** A response whose status passes [raise_for_status] and whose payload has
    the expected shape, with a content string of ASCII characters, gives
    that string without the white space at its ends, paired with the
    score. *)
Theorem explanation_success (cfg : config) (net : request -> post_result)
    (s : scheme) (user_profile : string)
    (status : Z) (reason : string) (v : json) (text : string) :
  configured cfg = true ->
  net (explanation_request cfg s user_profile)
    = Responded status reason (Payload v) ->
  http_error_status status = false ->
  payload_content v = Some text ->
  is_ascii text = true ->
  fst (generate_eligibility_explanation cfg net s user_profile)
  = Returned (Text.strip text, calculate_match_score s user_profile) /\
  trimmed (Text.strip text).
Proof.
  intros Hcfg Hnet Hst Hpay _. split; [|apply strip_is_trimmed].
  rewrite generate_fst, (call_configured cfg net _ 150 Hcfg). cbv zeta.
  unfold try_body, post. fold (explanation_request cfg s user_profile).
  rewrite Hnet. simpl.
  rewrite (raise_for_status_passes _ _ _ Hst). simpl.
  now rewrite (extract_content_well_formed v text Hpay).
Qed.

Lemma explanation_success_witness :
  configured credentials = true /\
  redirecting_service (explanation_request credentials kisan "farmer")
    = Responded 300 "Multiple Choices"
        (Payload (good_payload "Apply at the office.")) /\
  http_error_status 300 = false /\
  payload_content (good_payload "Apply at the office.")
    = Some "Apply at the office." /\
  is_ascii "Apply at the office." = true /\
  fst (generate_eligibility_explanation credentials redirecting_service
         kisan "farmer")
  = Returned (Text.strip "Apply at the office.",
              calculate_match_score kisan "farmer") /\
  trimmed (Text.strip "Apply at the office.").
Proof.
  assert (H1 : configured credentials = true) by reflexivity.
  assert (H2 : redirecting_service (explanation_request credentials kisan "farmer")
               = Responded 300 "Multiple Choices"
                   (Payload (good_payload "Apply at the office.")))
    by reflexivity.
  assert (H3 : http_error_status 300 = false) by reflexivity.
  assert (H4 : payload_content (good_payload "Apply at the office.")
               = Some "Apply at the office.") by reflexivity.
  assert (H5 : is_ascii "Apply at the office." = true) by reflexivity.
  split; [exact H1|]. split; [exact H2|]. split; [exact H3|]. split; [exact H4|].
  split; [exact H5|].
  exact (explanation_success credentials redirecting_service kisan "farmer"
           300 "Multiple Choices" _ _ H1 H2 H3 H4 H5).
Defined.

(** The wording of a fallback tells where the call failed.  Transport
    errors, error statuses and bodies that are not JSON read
    "Error calling Azure OpenAI" followed by the library's message; a JSON
    payload of the wrong shape reads "Unexpected error". *)
Theorem explanation_fallback_wording (cfg : config)
    (net : request -> post_result) (s : scheme) (user_profile : string) :
  configured cfg = true ->
  let rq := explanation_request cfg s user_profile in
  let result := fst (generate_eligibility_explanation cfg net s user_profile) in
  let score := calculate_match_score s user_profile in
  (forall msg, net rq = ConnectionFailed msg \/ net rq = TimedOut msg ->
     result = Returned ("⚠️ Error calling Azure OpenAI: " ++ msg, score)) /\
  (forall status reason body,
     net rq = Responded status reason body ->
     http_error_status status = true \/ body = NotJSON ->
     exists msg,
       result = Returned ("⚠️ Error calling Azure OpenAI: " ++ msg, score)) /\
  (forall status reason v,
     net rq = Responded status reason (Payload v) ->
     http_error_status status = false ->
     payload_content v = None ->
     exists msg, result = Returned ("⚠️ Unexpected error: " ++ msg, score)).
Proof.
  intros Hcfg rq result score. subst rq result score.
  rewrite generate_fst, (call_configured cfg net _ 150 Hcfg). cbv zeta.
  unfold try_body, post. fold (explanation_request cfg s user_profile).
  split; [|split].
  - intros msg [H|H]; rewrite H; reflexivity.
  - intros status reason body Hnet Hbad. rewrite Hnet. simpl.
    destruct (http_error_status status) eqn:Hst.
    + match goal with
      | |- context [raise_for_status ?url status reason] =>
          destruct (raise_for_status_request_error url status reason Hst)
            as [e [-> He]]
      end.
      simpl. rewrite He. eexists; reflexivity.
    + destruct Hbad as [Hbad| ->]; [discriminate Hbad|].
      rewrite (raise_for_status_passes _ _ _ Hst). simpl.
      eexists; reflexivity.
  - intros status reason v Hnet Hst Hpay. rewrite Hnet. simpl.
    rewrite (raise_for_status_passes _ _ _ Hst). simpl.
    destruct (extract_content_plain_error v Hpay) as [e [-> He]].
    rewrite He. eexists; reflexivity.
Qed.

Lemma explanation_fallback_wording_witness :
  configured credentials = true /\
  forall msg,
    timing_out_service (explanation_request credentials kisan "farmer")
      = ConnectionFailed msg \/
    timing_out_service (explanation_request credentials kisan "farmer")
      = TimedOut msg ->
    fst (generate_eligibility_explanation credentials timing_out_service
           kisan "farmer")
    = Returned ("⚠️ Error calling Azure OpenAI: " ++ msg,
                calculate_match_score kisan "farmer").
Proof.
  assert (H : configured credentials = true) by reflexivity.
  split; [exact H|].
  exact (proj1 (explanation_fallback_wording credentials timing_out_service
                  kisan "farmer" H)).
Defined.

(** ** Text analytics *)

(** [analyze_text_azure] never raises and checks no shape: it returns
    either a dictionary with the single key [error], or, word for word, the
    JSON body of a response whose status passed [raise_for_status].  It
    sends one request when both settings are present and none otherwise. *)
Theorem analyze_text_azure_result (cfg : analytics_config)
    (net : analytics_request -> post_result) (text : string) :
  let rq := build_analytics_request cfg text in
  ((exists msg, fst (analyze_text_azure cfg net text) = Returned (error_dict msg)) \/
   (exists status reason v,
      analytics_configured cfg = true /\
      net rq = Responded status reason (Payload v) /\
      http_error_status status = false /\
      fst (analyze_text_azure cfg net text) = Returned v)) /\
  snd (analyze_text_azure cfg net text)
  = (if analytics_configured cfg then [rq] else []).
Proof.
  intros rq. subst rq. unfold analyze_text_azure.
  destruct (analytics_configured cfg) eqn:Hcfg; simpl;
    [|split; [left; eexists; reflexivity | reflexivity]].
  unfold analytics_try_body.
  destruct (net (build_analytics_request cfg text))
    as [msg|msg|status reason body] eqn:Hnet; simpl;
    try (split; [left; eexists; reflexivity | reflexivity]).
  destruct (http_error_status status) eqn:Hst.
  - match goal with
    | |- context [raise_for_status ?url status reason] =>
        destruct (raise_for_status_request_error url status reason Hst)
          as [e [-> He]]
    end.
    simpl. rewrite He. split; [left; eexists; reflexivity | reflexivity].
  - rewrite (raise_for_status_passes _ _ _ Hst). simpl.
    destruct body as [|v]; simpl.
    + split; [left; eexists; reflexivity | reflexivity].
    + split; [|reflexivity]. right. exists status, reason, v. now repeat split.
Qed.

(** Without the key or the endpoint the analysis is not attempted. *)
Theorem analyze_text_azure_not_configured (cfg : analytics_config)
    (net : analytics_request -> post_result) (text : string) :
  analytics_configured cfg = false ->
  analyze_text_azure cfg net text
  = (Returned (error_dict "Azure Text Analytics not configured"), []).
Proof. intros H. unfold analyze_text_azure. now rewrite H. Qed.

Lemma analyze_text_azure_not_configured_witness :
  analytics_configured (mkAnalyticsConfig (Some "key") (Some "")) = false /\
  analyze_text_azure (mkAnalyticsConfig (Some "key") (Some ""))
    (fun _ => TimedOut "timed out") "I am a farmer"
  = (Returned (error_dict "Azure Text Analytics not configured"), []).
Proof.
  assert (H : analytics_configured (mkAnalyticsConfig (Some "key") (Some ""))
              = false) by reflexivity.
  split; [exact H|].
  exact (analyze_text_azure_not_configured _ _ "I am a farmer" H).
Defined.

(** ** Session state and scheme cards *)

Lemma mem_In (x : string) (xs : list string) : mem x xs = true <-> In x xs.
Proof.
  unfold mem. rewrite existsb_exists. split.
  - intros [y [Hin Heq]]. apply String.eqb_eq in Heq. now subst.
  - intros Hin. exists x. split; [exact Hin | apply String.eqb_refl].
Qed.

Lemma mem_false (x : string) (xs : list string) : mem x xs = false <-> ~ In x xs.
Proof.
  rewrite <- mem_In. destruct (mem x xs); split; intros H; try reflexivity;
    try discriminate; try (intros H'; discriminate H'). now elim H.
Qed.

(** [remove] succeeds on an element of the list. *)
Lemma list_remove_present (x : string) (xs : list string) :
  mem x xs = true -> exists l, list_remove x xs = Some l.
Proof.
  induction xs as [|y xs IH]; simpl; [discriminate|].
  rewrite (String.eqb_sym x y). destruct (y =? x)%string; simpl.
  - intros _. eexists; reflexivity.
  - intros H. destruct (IH H) as [l ->]. eexists; reflexivity.
Qed.

Lemma list_remove_members (x : string) (xs l : list string) :
  list_remove x xs = Some l ->
  (forall y, In y l -> In y xs) /\
  (forall y, y <> x -> In y xs -> In y l).
Proof.
  revert l; induction xs as [|z xs IH]; intros l; simpl; [discriminate|].
  destruct (z =? x)%string eqn:Hz.
  - intros [= <-]. apply String.eqb_eq in Hz. subst z. split.
    + intros y Hy. now right.
    + intros y Hne [Hy|Hy]; [now elim Hne | exact Hy].
  - destruct (list_remove x xs) as [l'|] eqn:Hr; [|discriminate].
    intros [= <-]. destruct (IH l' eq_refl) as [H1 H2]. split.
    + intros y [Hy|Hy]; [now left | right; now apply H1].
    + intros y Hne [Hy|Hy]; [now left | right; now apply H2].
Qed.

Lemma list_remove_nodup (x : string) (xs l : list string) :
  NoDup xs -> list_remove x xs = Some l -> NoDup l /\ ~ In x l.
Proof.
  revert l; induction xs as [|z xs IH]; intros l Hnd; simpl; [discriminate|].
  inversion Hnd as [|z' xs' Hz Hxs]; subst.
  destruct (z =? x)%string eqn:Heq.
  - intros [= <-]. apply String.eqb_eq in Heq. subst z. now split.
  - destruct (list_remove x xs) as [l'|] eqn:Hr; [|discriminate].
    intros [= <-]. destruct (IH l' Hxs eq_refl) as [H1 H2].
    destruct (list_remove_members x xs l' Hr) as [Hsub _]. split.
    + constructor; [|exact H1]. intros Hin. apply Hz. now apply Hsub.
    + intros [Hy|Hy]; [|now apply H2].
      apply String.eqb_neq in Heq. now elim Heq.
Qed.

(** What one press of a toggle button does to a list of ids without
    duplicates. *)
Lemma toggle_remove (x : string) (xs l : list string) :
  NoDup xs -> list_remove x xs = Some l ->
  NoDup l /\ mem x l = false /\
  forall y, y <> x -> (In y l <-> In y xs).
Proof.
  intros Hnd Hr.
  destruct (list_remove_nodup x xs l Hnd Hr) as [H1 H2].
  destruct (list_remove_members x xs l Hr) as [H3 H4].
  split; [exact H1|]. split; [now apply mem_false|].
  intros y Hne. split; [apply H3 | now apply H4].
Qed.

Lemma toggle_append (x : string) (xs : list string) :
  NoDup xs -> mem x xs = false ->
  NoDup (xs ++ [x]) /\ mem x (xs ++ [x]) = true /\
  forall y, y <> x -> (In y (xs ++ [x]) <-> In y xs).
Proof.
  intros Hnd Hm. apply mem_false in Hm. split; [|split].
  - apply NoDup_app; [exact Hnd | repeat constructor; intros [] | ].
    intros a Ha [<-|[]]. now apply Hm.
  - apply mem_In, in_or_app. right. now left.
  - intros y Hne. rewrite in_app_iff. simpl. split; [|tauto].
    intros [H|[H|[]]]; [exact H | now elim Hne].
Qed.

(** The score part of a call of the explanation generator. *)
Lemma generate_returns (cfg : config) (net : request -> post_result)
    (s : scheme) (p : string) :
  exists text sent,
    generate_eligibility_explanation cfg net s p
    = (Returned (text, calculate_match_score s p), sent).
Proof.
  destruct (generate_never_raises cfg net s p) as [text H].
  destruct (generate_eligibility_explanation cfg net s p) as [r sent].
  simpl in H. subst r. now exists text, sent.
Qed.

(** Neither the calls to the explanation generator nor the session updates
    of [render_scheme_card] raise: the generator hands back a string on
    every path, and [remove] is only called on an id that is in the list.
    (Streamlit's own widget calls are not part of the model.) *)
Theorem render_scheme_card_never_raises (cfg : config)
    (net : request -> post_result) (ss : session) (s : scheme) (clicked : click) :
  (exists score explanation,
     fst (render_scheme_card cfg net ss s clicked) = Rendered score explanation) \/
  (exists ss', fst (render_scheme_card cfg net ss s clicked) = Rerun ss').
Proof.
  unfold render_scheme_card.
  destruct (generate_returns cfg net s
              match last_user_profile ss with
              | Some p => p
              | None => "General user"
              end) as [text [sent ->]].
  destruct clicked.
  - destruct (mem (id s) (expanded_schemes ss)); left; eexists; eexists; reflexivity.
  - right. destruct (mem (id s) (expanded_schemes ss)) eqn:Hm.
    + destruct (list_remove_present _ _ Hm) as [l ->]. eexists; reflexivity.
    + eexists; reflexivity.
  - right. destruct (mem (id s) (bookmarked_schemes ss)) eqn:Hm.
    + destruct (list_remove_present _ _ Hm) as [l ->]. eexists; reflexivity.
    + eexists; reflexivity.
Qed.

(** Pressing the bookmark button of a card flips the bookmark of that
    scheme and of no other, keeps the list of bookmarks free of duplicates
    and leaves the rest of the session alone; the run then restarts. *)
Theorem bookmark_click_toggles (cfg : config) (net : request -> post_result)
    (ss : session) (s : scheme) :
  NoDup (bookmarked_schemes ss) ->
  exists ss',
    fst (render_scheme_card cfg net ss s ClickBookmark) = Rerun ss' /\
    NoDup (bookmarked_schemes ss') /\
    mem (id s) (bookmarked_schemes ss')
      = negb (mem (id s) (bookmarked_schemes ss)) /\
    (forall other, other <> id s ->
       (In other (bookmarked_schemes ss') <-> In other (bookmarked_schemes ss))) /\
    expanded_schemes ss' = expanded_schemes ss /\
    last_user_profile ss' = last_user_profile ss /\
    selected_category ss' = selected_category ss.
Proof.
  intros Hnd. unfold render_scheme_card.
  destruct (generate_returns cfg net s
              match last_user_profile ss with
              | Some p => p
              | None => "General user"
              end) as [text [sent ->]].
  destruct (mem (id s) (bookmarked_schemes ss)) eqn:Hm.
  - destruct (list_remove_present _ _ Hm) as [l Hl]. rewrite Hl.
    destruct (toggle_remove _ _ _ Hnd Hl) as [H1 [H2 H3]].
    exists (set_bookmarked ss l). simpl. now repeat split; try apply H3.
  - destruct (toggle_append _ _ Hnd Hm) as [H1 [H2 H3]].
    exists (set_bookmarked ss (bookmarked_schemes ss ++ [id s])). simpl.
    now repeat split; try apply H3.
Qed.

Lemma bookmark_click_toggles_witness :
  NoDup (bookmarked_schemes (mkSession ["1"; "4"] [] None None)) /\
  exists ss',
    fst (render_scheme_card no_credentials timing_out_service
           (mkSession ["1"; "4"] [] None None) kisan ClickBookmark) = Rerun ss' /\
    NoDup (bookmarked_schemes ss') /\
    mem (id kisan) (bookmarked_schemes ss')
      = negb (mem (id kisan) ["1"; "4"]) /\
    (forall other, other <> id kisan ->
       (In other (bookmarked_schemes ss') <-> In other ["1"; "4"])) /\
    expanded_schemes ss' = [] /\
    last_user_profile ss' = None /\
    selected_category ss' = None.
Proof.
  assert (H : NoDup (bookmarked_schemes (mkSession ["1"; "4"] [] None None))).
  { simpl. repeat constructor; simpl; intuition discriminate. }
  split; [exact H|].
  exact (bookmark_click_toggles no_credentials timing_out_service
           (mkSession ["1"; "4"] [] None None) kisan H).
Defined.

(** Pressing "Why I'm Eligible" opens a closed card and closes an open
    one, and touches neither the other cards nor the bookmarks. *)
Theorem expand_click_toggles (cfg : config) (net : request -> post_result)
    (ss : session) (s : scheme) :
  NoDup (expanded_schemes ss) ->
  exists ss',
    fst (render_scheme_card cfg net ss s ClickExpand) = Rerun ss' /\
    NoDup (expanded_schemes ss') /\
    mem (id s) (expanded_schemes ss')
      = negb (mem (id s) (expanded_schemes ss)) /\
    (forall other, other <> id s ->
       (In other (expanded_schemes ss') <-> In other (expanded_schemes ss))) /\
    bookmarked_schemes ss' = bookmarked_schemes ss /\
    last_user_profile ss' = last_user_profile ss /\
    selected_category ss' = selected_category ss.
Proof.
  intros Hnd. unfold render_scheme_card.
  destruct (generate_returns cfg net s
              match last_user_profile ss with
              | Some p => p
              | None => "General user"
              end) as [text [sent ->]].
  destruct (mem (id s) (expanded_schemes ss)) eqn:Hm.
  - destruct (list_remove_present _ _ Hm) as [l Hl]. rewrite Hl.
    destruct (toggle_remove _ _ _ Hnd Hl) as [H1 [H2 H3]].
    exists (set_expanded ss l). simpl. now repeat split; try apply H3.
  - destruct (toggle_append _ _ Hnd Hm) as [H1 [H2 H3]].
    exists (set_expanded ss (expanded_schemes ss ++ [id s])). simpl.
    now repeat split; try apply H3.
Qed.

Lemma expand_click_toggles_witness :
  NoDup (expanded_schemes (mkSession [] ["4"] None None)) /\
  exists ss',
    fst (render_scheme_card no_credentials timing_out_service
           (mkSession [] ["4"] None None) kisan ClickExpand) = Rerun ss' /\
    NoDup (expanded_schemes ss') /\
    mem (id kisan) (expanded_schemes ss') = negb (mem (id kisan) ["4"]) /\
    (forall other, other <> id kisan ->
       (In other (expanded_schemes ss') <-> In other ["4"])) /\
    bookmarked_schemes ss' = [] /\
    last_user_profile ss' = None /\
    selected_category ss' = None.
Proof.
  assert (H : NoDup (expanded_schemes (mkSession [] ["4"] None None))).
  { simpl. repeat constructor; simpl; intuition discriminate. }
  split; [exact H|].
  exact (expand_click_toggles no_credentials timing_out_service
           (mkSession [] ["4"] None None) kisan H).
Defined.

(** Drawing a card costs a request of its own: the score shown on every
    card comes from a full call of the explanation generator whose text is
    thrown away.  With credentials a card sends one request, and an open
    card drawn to its end a second one for the text it shows; without
    credentials nothing is sent. *)
Theorem render_scheme_card_requests (cfg : config)
    (net : request -> post_result) (ss : session) (s : scheme) (clicked : click) :
  List.length (snd (render_scheme_card cfg net ss s clicked))
  = if configured cfg then
      match clicked with
      | NoClick => if mem (id s) (expanded_schemes ss) then 2%nat else 1%nat
      | _ => 1%nat
      end
    else 0%nat.
Proof.
  unfold render_scheme_card.
  set (p := match last_user_profile ss with
            | Some p => p
            | None => "General user"
            end).
  pose proof (generate_sent cfg net s p) as Hsent.
  destruct (generate_returns cfg net s p) as [text [sent Hg]].
  rewrite Hg in *. simpl in Hsent.
  assert (Hlen : List.length sent = if configured cfg then 1%nat else 0%nat)
    by (rewrite Hsent; now destruct (configured cfg)).
  destruct clicked.
  - destruct (mem (id s) (expanded_schemes ss)); simpl.
    + rewrite length_app, Hlen. now destruct (configured cfg).
    + rewrite Hlen. now destruct (configured cfg).
  - destruct (mem (id s) (expanded_schemes ss)) eqn:Hm.
    + destruct (list_remove_present _ _ Hm) as [l ->]. simpl. exact Hlen.
    + simpl. exact Hlen.
  - destruct (mem (id s) (bookmarked_schemes ss)) eqn:Hm.
    + destruct (list_remove_present _ _ Hm) as [l ->]. simpl. exact Hlen.
    + simpl. exact Hlen.
Qed.

Lemma default_profile_score (s : scheme) :
  calculate_match_score s "General user" = 50.
Proof.
  unfold calculate_match_score, matches, profile_text, sum_ones, keywords.
  simpl. rewrite !andb_false_r. reflexivity.
Qed.

(** A card drawn before any profile is stored in the session is scored
    against the text "General user", which shares no keyword with any
    scheme: it shows 50, whatever the scheme. *)
Theorem card_without_profile_shows_50 (cfg : config)
    (net : request -> post_result) (ss : session) (s : scheme) :
  last_user_profile ss = None ->
  exists explanation,
    fst (render_scheme_card cfg net ss s NoClick) = Rendered 50 explanation.
Proof.
  intros Hp. unfold render_scheme_card. rewrite Hp.
  destruct (generate_returns cfg net s "General user") as [text [sent ->]].
  rewrite default_profile_score.
  destruct (mem (id s) (expanded_schemes ss)); eexists; reflexivity.
Qed.

Lemma card_without_profile_shows_50_witness :
  last_user_profile (mkSession [] [] None None) = None /\
  exists explanation,
    fst (render_scheme_card credentials redirecting_service
           (mkSession [] [] None None) kisan NoClick) = Rendered 50 explanation.
Proof.
  assert (H : last_user_profile (mkSession [] [] None None) = None)
    by reflexivity.
  split; [exact H|].
  exact (card_without_profile_shows_50 credentials redirecting_service
           (mkSession [] [] None None) kisan H).
Defined.

(** ** Bookmarked schemes *)

(** The list that [render_bookmarked_schemes] builds is the catalog with
    the schemes whose id is not bookmarked left out: it keeps the catalog's
    order, holds a catalog scheme exactly when its id is bookmarked, and
    is the same for two lists of bookmarks with the same members, whatever
    their order and repetitions.  (What Streamlit then draws from the list
    is not part of the model.) *)
Theorem bookmarked_cards_by_catalog (SCHEMES : list scheme) (ss ss' : session) :
  (forall x, In x (bookmarked_schemes ss) <-> In x (bookmarked_schemes ss')) ->
  bookmarked_cards SCHEMES ss
  = filter (fun s => mem (id s) (bookmarked_schemes ss)) SCHEMES /\
  (forall s, In s (bookmarked_cards SCHEMES ss) <->
             In s SCHEMES /\ In (id s) (bookmarked_schemes ss)) /\
  bookmarked_cards SCHEMES ss = bookmarked_cards SCHEMES ss'.
Proof.
  intros Hsame.
  assert (Hfilter : forall t,
            bookmarked_cards SCHEMES t
            = filter (fun s => mem (id s) (bookmarked_schemes t)) SCHEMES).
  { intros t. unfold bookmarked_cards.
    destruct (bookmarked_schemes t); [|reflexivity].
    induction SCHEMES as [|s l IH]; simpl; [reflexivity | exact IH]. }
  split; [apply Hfilter|]. split.
  - intros s. rewrite Hfilter, filter_In, mem_In. reflexivity.
  - rewrite !Hfilter. apply filter_ext. intros s.
    destruct (mem (id s) (bookmarked_schemes ss')) eqn:H'.
    + apply mem_In, Hsame, mem_In. exact H'.
    + apply mem_false. intros Hin. apply Hsame in Hin.
      apply mem_In in Hin. congruence.
Qed.

Lemma bookmarked_cards_by_catalog_witness :
  (forall x, In x (bookmarked_schemes (mkSession ["4"; "1"] [] None None)) <->
             In x (bookmarked_schemes (mkSession ["1"; "4"; "1"] [] None None))) /\
  bookmarked_cards [kisan; household; mahila] (mkSession ["4"; "1"] [] None None)
  = [kisan; mahila] /\
  bookmarked_cards [kisan; household; mahila] (mkSession ["4"; "1"] [] None None)
  = bookmarked_cards [kisan; household; mahila]
      (mkSession ["1"; "4"; "1"] [] None None).
Proof.
  assert (H : forall x,
            In x (bookmarked_schemes (mkSession ["4"; "1"] [] None None)) <->
            In x (bookmarked_schemes (mkSession ["1"; "4"; "1"] [] None None)))
    by (intros x; simpl; tauto).
  split; [exact H|].
  destruct (bookmarked_cards_by_catalog [kisan; household; mahila]
              (mkSession ["4"; "1"] [] None None)
              (mkSession ["1"; "4"; "1"] [] None None) H) as [H1 [_ H3]].
  split; [rewrite H1; reflexivity | exact H3].
Defined.
